(** * Ingredient expiry prediction service: a shallow embedding of [app.py]

    The service loads a serialized regression model once, then answers
    [/predict], [/health] and [/] requests.  The handlers are embedded as
    functions over the process-wide state (the two module globals [model]
    and [model_loaded]); Python values, exceptions and the builtins the
    handlers call are modelled in [Py], the application itself in [App]. *)

From Stdlib Require Import ZArith List String Ascii Bool Floats Permutation Lia.
From Stdlib Require Import DecimalString.
Import ListNotations.
Open Scope string_scope.

(** * The fragment of Python the handlers run on *)
Module Py.

(** ** Exceptions

    Only instances of [Exception] are modelled: the two handlers name
    [ValueError], [FileNotFoundError] and [Exception] and nothing else.
    A class the model or the loader defines is a [Derived] class. *)
Inductive exn_class : Type :=
| Exception
| ValueError
| TypeError
| OverflowError
| IndexError
| KeyError
| AttributeError
| FileNotFoundError
| HTTPException
| Derived (name : string) (base : exn_class).

Record exn : Type := mk_exn { exn_type : exn_class; exn_str : string }.

Definition same_builtin (c d : exn_class) : bool :=
  match c, d with
  | Exception, Exception | ValueError, ValueError | TypeError, TypeError
  | OverflowError, OverflowError | IndexError, IndexError
  | KeyError, KeyError | AttributeError, AttributeError
  | FileNotFoundError, FileNotFoundError
  | HTTPException, HTTPException => true
  | _, _ => false
  end.

(** [issubclass c target] for a builtin [target]: every class derives
    from [Exception]; a [Derived] class inherits from its base. *)
Fixpoint issubclass (c target : exn_class) : bool :=
  match target with
  | Exception => true
  | _ =>
      match c with
      | Derived _ base => issubclass base target
      | _ => same_builtin c target
      end
  end.

(** What an [except target] clause tests. *)
Definition isinstance (e : exn) (target : exn_class) : bool :=
  issubclass (exn_type e) target.

(** ** Results: a value, or a raised exception. *)
Inductive res (A : Type) : Type :=
| Ok (a : A)
| Raise (e : exn).
Arguments Ok {A} a.
Arguments Raise {A} e.

Definition bind {A B : Type} (r : res A) (k : A -> res B) : res B :=
  match r with
  | Ok a => k a
  | Raise e => Raise e
  end.

(** ** Values: what [json.loads] produces, which is also what stands
    for the array a model returns. *)
#[local] Unset Elimination Schemes.
Inductive pyval : Type :=
| VNone
| VBool (b : bool)
| VInt (z : Z)
| VFloat (f : float)
| VStr (s : string)
| VList (l : list pyval)
| VDict (items : list (string * pyval)).
#[local] Set Elimination Schemes.

Definition type_name (v : pyval) : string :=
  match v with
  | VNone => "NoneType"
  | VBool _ => "bool"
  | VInt _ => "int"
  | VFloat _ => "float"
  | VStr _ => "str"
  | VList _ => "list"
  | VDict _ => "dict"
  end.

(** Truth value testing: [None], [False], zero, and empty strings and
    containers are false. *)
Definition truthy (v : pyval) : bool :=
  match v with
  | VNone => false
  | VBool b => b
  | VInt z => negb (z =? 0)%Z
  | VFloat f => negb (f =? 0)%float
  | VStr s => negb (s =? "")
  | VList l => match l with [] => false | _ => true end
  | VDict items => match items with [] => false | _ => true end
  end.

(** The items of a dict, looked up by key (a key listed twice reads as
    its first entry). *)
Fixpoint lookup (k : string) (items : list (string * pyval)) : option pyval :=
  match items with
  | [] => None
  | (k', v) :: rest => if k' =? k then Some v else lookup k rest
  end.

Definition is_str (k : string) (v : pyval) : bool :=
  match v with
  | VStr s => s =? k
  | _ => false
  end.

Fixpoint substring (needle hay : string) : bool :=
  prefix needle hay
  || match hay with
     | EmptyString => false
     | String _ rest => substring needle rest
     end.

(** [k in v] for a string [k]: key membership in a dict, element
    equality in a list, substring in a string, [TypeError] elsewhere. *)
Definition contains (v : pyval) (k : string) : res bool :=
  match v with
  | VDict items => Ok (match lookup k items with Some _ => true | None => false end)
  | VList l => Ok (existsb (is_str k) l)
  | VStr s => Ok (substring k s)
  | _ => Raise (mk_exn TypeError
                  ("argument of type '" ++ type_name v ++ "' is not iterable"))
  end.

(** ** Strings

    A string is the UTF-8 encoding of a Python [str]: it is ASCII when
    every byte is below 128, and a character that starts with the byte
    [c] takes [utf8_width c] bytes. *)
Definition is_ascii_char (c : ascii) : bool := (N_of_ascii c <? 128)%N.

Fixpoint is_ascii (s : string) : bool :=
  match s with
  | EmptyString => true
  | String c rest => is_ascii_char c && is_ascii rest
  end.

Definition utf8_width (c : ascii) : nat :=
  let n := N_of_ascii c in
  if (n <? 192)%N then 1 else if (n <? 224)%N then 2
  else if (n <? 240)%N then 3 else 4.

Definition upper_ascii (c : ascii) : ascii :=
  let n := N_of_ascii c in
  if ((97 <=? n) && (n <=? 122))%N then ascii_of_N (n - 32) else c.

Definition lower_ascii (c : ascii) : ascii :=
  let n := N_of_ascii c in
  if ((65 <=? n) && (n <=? 90))%N then ascii_of_N (n + 32) else c.

(** [str.upper] on an ASCII string: the letters a-z become A-Z. *)
Fixpoint ascii_upper (s : string) : string :=
  match s with
  | EmptyString => EmptyString
  | String c rest => String (upper_ascii c) (ascii_upper rest)
  end.

(** [str.lower] on an ASCII string: the letters A-Z become a-z. *)
Fixpoint ascii_lower (s : string) : string :=
  match s with
  | EmptyString => EmptyString
  | String c rest => String (lower_ascii c) (ascii_lower rest)
  end.

(** ** Numbers *)

(** [float(z)] for an int: the nearest binary64 value, ties to even;
    [OverflowError] when that is out of range. *)
Definition float_of_int (z : Z) : res float :=
  let f := SF2Prim (binary_normalize prec emax z 0 false) in
  if is_infinity f
  then Raise (mk_exn OverflowError "int too large to convert to float")
  else Ok f.

(** The builtins whose full definition lies outside this repository:
    the parser behind [float(s)] on a string ([None] where it raises
    [ValueError]), [repr], and Unicode's case mappings, that is
    [str.upper] and [str.lower] on a string with a character outside
    ASCII. *)
Class Builtins : Type :=
  { float_of_str : string -> option float;
    repr : pyval -> string;
    str_upper : string -> string;
    str_lower : string -> string }.

Section WithBuiltins.
Context {B : Builtins}.

(** [s.upper()]. *)
Definition upper (s : string) : string :=
  if is_ascii s then ascii_upper s else str_upper s.

(** [s.lower()]. *)
Definition lower (s : string) : string :=
  if is_ascii s then ascii_lower s else str_lower s.

(** [str(v)]: a string is itself, anything else prints as [repr]. *)
Definition str (v : pyval) : string :=
  match v with
  | VStr s => s
  | _ => repr v
  end.

(** [float(v)]. *)
Definition float_of (v : pyval) : res float :=
  match v with
  | VFloat f => Ok f
  | VInt z => float_of_int z
  | VBool b => Ok (if b then 1%float else 0%float)
  | VStr s =>
      match float_of_str s with
      | Some f => Ok f
      | None => Raise (mk_exn ValueError
                         ("could not convert string to float: " ++ repr v))
      end
  | _ => Raise (mk_exn TypeError
                  ("float() argument must be a string or a real number, not '"
                     ++ type_name v ++ "'"))
  end.

(** [v[k]] for a string key [k]. *)
Definition getitem (v : pyval) (k : string) : res pyval :=
  match v with
  | VDict items =>
      match lookup k items with
      | Some x => Ok x
      | None => Raise (mk_exn KeyError (repr (VStr k)))
      end
  | VList _ =>
      Raise (mk_exn TypeError "list indices must be integers or slices, not str")
  | VStr _ =>
      Raise (mk_exn TypeError "string indices must be integers, not 'str'")
  | _ => Raise (mk_exn TypeError
                  ("'" ++ type_name v ++ "' object is not subscriptable"))
  end.

(** [v[0]]. *)
Definition getitem0 (v : pyval) : res pyval :=
  match v with
  | VList (x :: _) => Ok x
  | VList [] => Raise (mk_exn IndexError "list index out of range")
  | VStr (String c rest) =>
      Ok (VStr (String c (String.substring 0 (utf8_width c - 1) rest)))
  | VStr EmptyString => Raise (mk_exn IndexError "string index out of range")
  | VDict _ => Raise (mk_exn KeyError "0")
  | _ => Raise (mk_exn TypeError
                  ("'" ++ type_name v ++ "' object is not subscriptable"))
  end.
End WithBuiltins.

End Py.

(** * The application: [app.py] *)
Module App.
Import Py.

(** The one-row frame handed to the model. *)
Record features : Type := mk_features
  { temperature : float;
    humidity : float;
    time_in_inventory : float;
    ingredient_type : string;
    storage_type : string }.

(** A deserialized object, seen through the only use the service makes
    of it: the outcome of [model.predict(features)] (for an object
    without [predict], [None] included, that is an [AttributeError]). *)
Definition model_obj : Type := features -> res pyval.

(** ** Model loading *)

(** [load_model], as state passing on the global [model] it declares;
    [loaded] is the outcome of [joblib.load(MODEL_PATH)]. *)
Definition load_model (loaded : res model_obj) (model : option model_obj)
  : res bool * option model_obj :=
  match loaded with
  | Ok m => (Ok true, Some m)
  | Raise e =>
      if isinstance e FileNotFoundError then (Ok false, model)
      else if isinstance e Exception then (Ok false, model)
      else (Raise e, model)
  end.

(** The process-wide state the handlers consult. *)
Record state : Type := mk_state
  { model : option model_obj;
    model_loaded : bool }.

(** Module initialisation: [model = None], then
    [model_loaded = load_model()]. *)
Definition startup (loaded : res model_obj) : res state :=
  let '(r, m) := load_model loaded None in
  bind r (fun flag => Ok (mk_state m flag)).

(** ** Handlers

    A handler runs in the state monad over [state] and ends in an
    [outcome]: a response with its status, or an exception that escapes
    to the framework. *)
Inductive outcome : Type :=
| Respond (body : pyval) (status : Z)
| Propagate (e : exn).

Definition M (A : Type) : Type := state -> A * state.
Definition ret {A : Type} (a : A) : M A := fun s => (a, s).
Definition bindM {A B : Type} (m : M A) (k : A -> M B) : M B :=
  fun s => let '(a, s') := m s in k a s'.
Definition read_model : M (option model_obj) := fun s => (model s, s).
Definition read_model_loaded : M bool := fun s => (model_loaded s, s).

Notation "x <- m ;; k" := (bindM m (fun x => k))
  (at level 61, m at next level, right associativity).
Notation "x <-? r ;; k" := (bind r (fun x => k))
  (at level 61, r at next level, right associativity).

Definition required_fields : list string :=
  ["temperature"; "humidity"; "time_in_refrigerator"; "ingredient_type";
   "storage_type"].

Definition error_body (msg : string) : pyval := VDict [("error", VStr msg)].

(** [[f for f in fields if f not in data]]. *)
Fixpoint missing_fields (data : pyval) (fields : list string)
  : res (list string) :=
  match fields with
  | [] => Ok []
  | f :: rest =>
      present <-? contains data f ;;
      more <-? missing_fields data rest ;;
      Ok (if present then more else f :: more)
  end.

(** The three-way mapping of predicted hours. *)
Definition classify (predicted_hours : float) : string :=
  if (predicted_hours <=? 0)%float then "Expired"
  else if (predicted_hours <=? 24)%float then "Stale"
  else "Fresh".

Section Handlers.
Context {B : Builtins}.

(** The row of the frame, its entries evaluated in source order. *)
Definition build_features (data : pyval) : res features :=
  t <-? bind (getitem data "temperature") float_of ;;
  h <-? bind (getitem data "humidity") float_of ;;
  i <-? bind (getitem data "time_in_refrigerator") float_of ;;
  g <-? getitem data "ingredient_type" ;;
  s <-? getitem data "storage_type" ;;
  Ok (mk_features t h i (str g) (upper (str s))).

(** [model.predict(features)] on the global [model]. *)
Definition model_predict (m : option model_obj) (x : features) : res pyval :=
  match m with
  | Some predict_method => predict_method x
  | None => Raise (mk_exn AttributeError
                     "'NoneType' object has no attribute 'predict'")
  end.

(** [float(model.predict(features)[0])]. *)
Definition predicted (m : option model_obj) (x : features) : res float :=
  out <-? model_predict m x ;;
  first <-? getitem0 out ;;
  float_of first.

(** The body of the [try] block. *)
Definition predict_body (m : option model_obj) (data : pyval) : res outcome :=
  x <-? build_features data ;;
  predicted_hours <-? predicted m x ;;
  Ok (Respond (VDict [("hours_until_expiry", VFloat predicted_hours);
                      ("classification", VStr (classify predicted_hours))])
              200).

(** The [try] block with its two [except] clauses. *)
Definition predict_guarded (m : option model_obj) (data : pyval) : outcome :=
  match predict_body m data with
  | Ok response => response
  | Raise e =>
      if isinstance e ValueError
      then Respond (error_body ("Invalid input: " ++ exn_str e)) 400
      else if isinstance e Exception
      then Respond (error_body ("Prediction error: " ++ exn_str e)) 500
      else Propagate e
  end.

(** [POST /predict]; [body] is the outcome of [request.get_json()]. *)
Definition predict (body : res pyval) : M outcome :=
  loaded <- read_model_loaded ;;
  if negb loaded then ret (Respond (error_body "Model not loaded") 500)
  else
    match body with
    | Raise e => ret (Propagate e)
    | Ok data =>
        if negb (truthy data)
        then ret (Respond (error_body "No data provided") 400)
        else
          match missing_fields data required_fields with
          | Raise e => ret (Propagate e)
          | Ok (f :: fs) =>
              ret (Respond (error_body
                              ("Missing fields: " ++ concat ", " (f :: fs)))
                           400)
          | Ok [] =>
              m <- read_model ;;
              ret (predict_guarded m data)
          end
    end.
End Handlers.

(** [GET /health]. *)
Definition health : M outcome :=
  loaded <- read_model_loaded ;;
  ret (Respond (VDict [("status", VStr "healthy");
                       ("model_loaded", VBool loaded)])
               200).

(** [GET /]. *)
Definition home : M outcome :=
  loaded <- read_model_loaded ;;
  ret (Respond (VDict [("message",
                        VStr "Ingredient Expiry Prediction API is running!");
                       ("endpoints", VList [VStr "/predict"; VStr "/health"]);
                       ("model_loaded", VBool loaded)])
               200).

(** ** Serving a sequence of requests *)
Inductive call : Type :=
| CallPredict (body : res pyval)
| CallHealth
| CallHome.

Definition handle {B : Builtins} (c : call) : M outcome :=
  match c with
  | CallPredict body => predict body
  | CallHealth => health
  | CallHome => home
  end.

Fixpoint serve {B : Builtins} (calls : list call) : M (list outcome) :=
  match calls with
  | [] => ret []
  | c :: rest =>
      o <- handle c ;;
      os <- serve rest ;;
      ret (o :: os)
  end.

End App.

(** * Concrete builtins, models and requests

    An instance of [Py.Builtins] on which the handlers evaluate.  Its
    [float(s)] reads an optional sign and decimal digits and rejects every
    other string, among them all those CPython rejects; its [repr] prints
    floats of integral value below 10^16 as CPython does and the others as
    their exact ratio; its case mappings are Unicode's on Latin-1 and on
    the capital sharp s.  The theorems below hold for every instance. *)
Module Sample.
Import Py App.

Definition float_of_Z (z : Z) : float :=
  SF2Prim (binary_normalize prec emax z 0 false).

(** An optional sign and decimal digits. *)
Definition float_of_decimal (s : string) : option float :=
  match s with
  | String "+"%char digits =>
      option_map (fun u => float_of_Z (Z.of_uint u)) (NilZero.uint_of_string digits)
  | _ => option_map (fun i => float_of_Z (Z.of_int i)) (NilZero.int_of_string s)
  end.

Definition decimal (z : Z) : string := NilZero.string_of_int (Z.to_int z).

Definition signed (negative : bool) (digits : string) : string :=
  if negative then "-" ++ digits else digits.

Definition repr_float (f : float) : string :=
  match Prim2SF f with
  | S754_nan => "nan"
  | S754_infinity s => signed s "inf"
  | S754_zero s => signed s "0.0"
  | S754_finite s m e =>
      let num := if (0 <=? e)%Z then Z.shiftl (Zpos m) e else Zpos m in
      let den := if (0 <=? e)%Z then 1%Z else Z.shiftl 1 (- e) in
      if ((num mod den =? 0) && (num / den <? 10 ^ 16))%Z
      then signed s (decimal (num / den) ++ ".0")
      else signed s (decimal num ++ "/" ++ decimal den)
  end.

Fixpoint repr_value (v : pyval) : string :=
  match v with
  | VNone => "None"
  | VBool b => if b then "True" else "False"
  | VInt z => decimal z
  | VFloat f => repr_float f
  | VStr s => "'" ++ s ++ "'"
  | VList l => "[" ++ concat ", " (map repr_value l) ++ "]"
  | VDict items =>
      "{" ++ concat ", "
               (map (fun kv => let '(k, x) := kv in "'" ++ k ++ "': " ++ repr_value x)
                    items)
          ++ "}"
  end.

(** [str.upper] on text whose characters outside ASCII lie in Latin-1
    (U+0080 to U+00FF): U+00E0 to U+00FE but U+00F7 move down by 32,
    U+00DF (sharp s) becomes SS, U+00FF and U+00B5 become U+0178 and
    U+039C; any other character is kept. *)
Fixpoint upper_latin (s : string) : string :=
  match s with
  | EmptyString => EmptyString
  | String c rest =>
      match rest with
      | EmptyString => String (upper_ascii c) EmptyString
      | String d rest' =>
          let n := N_of_ascii c in
          let k := N_of_ascii d in
          if ((n =? 195) && (k =? 159))%N
          then "SS" ++ upper_latin rest'
          else if ((n =? 195) && (k =? 191))%N
          then String "197" (String "184" (upper_latin rest'))
          else if ((n =? 194) && (k =? 181))%N
          then String "206" (String "156" (upper_latin rest'))
          else if ((n =? 195) && (160 <=? k) && (k <=? 190) && negb (k =? 183))%N
          then String c (String (ascii_of_N (k - 32)) (upper_latin rest'))
          else String (upper_ascii c) (upper_latin rest)
      end
  end.

(** [str.lower] on text whose characters outside ASCII lie in Latin-1 or
    are U+1E9E (capital sharp s): U+00C0 to U+00DE but U+00D7 move up by
    32, U+1E9E becomes U+00DF; any other character is kept. *)
Fixpoint lower_latin (s : string) : string :=
  match s with
  | EmptyString => EmptyString
  | String c rest =>
      match rest with
      | EmptyString => String (lower_ascii c) EmptyString
      | String d rest' =>
          let n := N_of_ascii c in
          let k := N_of_ascii d in
          if ((n =? 195) && (128 <=? k) && (k <=? 158) && negb (k =? 151))%N
          then String c (String (ascii_of_N (k + 32)) (lower_latin rest'))
          else
            match rest' with
            | EmptyString => String (lower_ascii c) (lower_latin rest)
            | String e rest'' =>
                if ((n =? 225) && (k =? 186) && (N_of_ascii e =? 158))%N
                then String "195" (String "159" (lower_latin rest''))
                else String (lower_ascii c) (lower_latin rest)
            end
      end
  end.

Definition builtins : Builtins :=
  {| float_of_str := float_of_decimal;
     repr := repr_value;
     str_upper := upper_latin;
     str_lower := lower_latin |}.

(** U+00DF, the small sharp s, and U+1E9E, its capital, in UTF-8. *)
Definition sharp_s : string := String "195" (String "159" EmptyString).
Definition capital_sharp_s : string :=
  String "225" (String "186" (String "158" EmptyString)).

(** The request of the end-to-end scenario with another storage type. *)
Definition stored_in (storage : string) : list (string * pyval) :=
  [("temperature", VInt 4); ("humidity", VInt 65);
   ("time_in_refrigerator", VInt 10); ("ingredient_type", VStr "CHEESE");
   ("storage_type", VStr storage)].

(** A model that tells the storage type SS from the others. *)
Definition storage_model : model_obj :=
  fun x => Ok (VList [VFloat (if storage_type x =? "SS" then 30 else 10)]).

(** A model that predicts the same hours for every row. *)
Definition constant_model (hours : float) : model_obj :=
  fun _ => Ok (VList [VFloat hours]).

(** A model whose [predict] raises. *)
Definition failing_model (e : exn) : model_obj := fun _ => Raise e.

Definition serving (m : model_obj) : state := mk_state (Some m) true.

(** The request of the end-to-end scenario. *)
Definition cheese_items : list (string * pyval) :=
  [("temperature", VInt 4); ("humidity", VInt 65);
   ("time_in_refrigerator", VInt 10); ("ingredient_type", VStr "CHEESE");
   ("storage_type", VStr "fridge")].

(** The same request with a null temperature and a non-numeric humidity. *)
Definition null_then_text_items : list (string * pyval) :=
  [("temperature", VNone); ("humidity", VStr "abc");
   ("time_in_refrigerator", VInt 10); ("ingredient_type", VStr "CHEESE");
   ("storage_type", VStr "fridge")].

(** The same request with a non-numeric temperature and a null humidity. *)
Definition text_then_null_items : list (string * pyval) :=
  [("temperature", VStr "abc"); ("humidity", VNone);
   ("time_in_refrigerator", VInt 10); ("ingredient_type", VStr "CHEESE");
   ("storage_type", VStr "fridge")].

Definition run_predict (st : state) (data : pyval) : outcome :=
  fst (predict (B := builtins) (Ok data) st).

(** The row built from [cheese_items]. *)
Definition cheese_features : features := mk_features 4 65 10 "CHEESE" "FRIDGE".

(** What a fitted encoder raises on a category it has not seen. *)
Definition unknown_category : exn :=
  mk_exn ValueError "Found unknown categories ['DURIAN'] in column 0 during transform".

End Sample.

(** * Vocabulary of the specification *)
Module Spec.
Import Py App.

(** The field names a JSON object binds. *)
Definition keys (items : list (string * pyval)) : list string := map fst items.

(** The required fields an object does not bind, in declared order. *)
Definition absent (items : list (string * pyval)) : list string :=
  filter (fun f => negb (existsb (String.eqb f) (keys items))) required_fields.

(** The fields coerced with [float], in the order the row lists them. *)
Definition numeric_fields : list string :=
  ["temperature"; "humidity"; "time_in_refrigerator"].

(** The object binds [k] to a value [float] accepts. *)
Definition coerces {B : Builtins} (items : list (string * pyval)) (k : string)
  : Prop :=
  exists v y, lookup k items = Some v /\ float_of v = Ok y.

(** Two strings that differ at most in the case of their letters: they
    are equal once lower-cased. *)
Definition same_ignoring_case {B : Builtins} (s1 s2 : string) : Prop :=
  lower s1 = lower s2.

(** The string has one of the letters a-z. *)
Fixpoint has_lowercase (s : string) : bool :=
  match s with
  | EmptyString => false
  | String c rest =>
      ((97 <=? N_of_ascii c) && (N_of_ascii c <=? 122))%N || has_lowercase rest
  end.

(** Two objects that bind every key but [k] alike. *)
Definition agree_except (k : string) (items1 items2 : list (string * pyval))
  : Prop :=
  forall k', k' <> k -> lookup k' items1 = lookup k' items2.

(** A value the membership test [in] accepts: a dict, a list or a string. *)
Definition is_container (v : pyval) : bool :=
  match v with
  | VDict _ | VList _ | VStr _ => true
  | _ => false
  end.

(** Two objects that bind the five required fields alike. *)
Definition agree_on_required (items1 items2 : list (string * pyval)) : Prop :=
  forall k, In k required_fields -> lookup k items1 = lookup k items2.

(** The body of a successful answer. *)
Definition success_body (hours : float) : pyval :=
  VDict [("hours_until_expiry", VFloat hours);
         ("classification", VStr (classify hours))].

(** The labels from worst to best: "Expired", "Stale", "Fresh". *)
Definition label_rank (label : string) : nat :=
  if label =? "Expired" then 0 else if label =? "Stale" then 1 else 2.

(** The required fields that are not elements of a JSON array, in
    declared order. *)
Definition not_listed (l : list pyval) : list string :=
  filter (fun f => negb (existsb (is_str f) l)) required_fields.
End Spec.

(** * Properties of the service *)

Import Py App Spec.

(** ** Comparisons of binary64 values *)

Lemma SFcompare_antisym (a b : spec_float) :
  SFcompare b a = option_map CompOpp (SFcompare a b).
Proof.
  destruct a as [sa|sa| |sa ma ea], b as [sb|sb| |sb mb eb]; simpl;
    try reflexivity;
    try (destruct sa; reflexivity);
    try (destruct sb; reflexivity);
    try (destruct sa, sb; reflexivity).
  f_equal.
  rewrite (Z.compare_antisym ea eb).
  change (PosDef.Pos.compare_cont Eq mb ma) with (Pos.compare mb ma).
  change (PosDef.Pos.compare_cont Eq ma mb) with (Pos.compare ma mb).
  rewrite (Pos.compare_antisym ma mb).
  destruct sa, sb; simpl; try reflexivity;
    destruct (ea ?= eb)%Z; simpl; try reflexivity;
    destruct (ma ?= mb)%positive; reflexivity.
Qed.

Lemma ltb_not_leb (x y : float) :
  (x <? y)%float = true -> (y <=? x)%float = false.
Proof.
  rewrite ltb_spec, leb_spec.
  unfold SFltb, SFleb.
  rewrite (SFcompare_antisym (Prim2SF x) (Prim2SF y)).
  destruct (SFcompare (Prim2SF x) (Prim2SF y)) as [[| |]|];
    simpl; intro Hlt; try discriminate Hlt; reflexivity.
Qed.

Lemma above_24_positive (x : float) :
  (24 <? x)%float = true -> (x <=? 0)%float = false.
Proof.
  rewrite ltb_spec, leb_spec.
  replace (Prim2SF 24) with (S754_finite false 6755399441055744 (-48))
    by reflexivity.
  replace (Prim2SF 0) with (S754_zero false) by reflexivity.
  unfold SFltb, SFleb.
  destruct (Prim2SF x) as [s|s| |s m e]; simpl; try discriminate;
    destruct s; simpl; try discriminate; reflexivity.
Qed.

(** ** The classification rule *)

Lemma classify_expired (h : float) :
  (h <=? 0)%float = true -> classify h = "Expired".
Proof. intro Hle. unfold classify. rewrite Hle. reflexivity. Qed.

Lemma classify_stale (h : float) :
  (0 <? h)%float = true -> (h <=? 24)%float = true -> classify h = "Stale".
Proof.
  intros Hpos Hle. unfold classify.
  rewrite (ltb_not_leb _ _ Hpos), Hle. reflexivity.
Qed.

Lemma classify_fresh (h : float) :
  (24 <? h)%float = true -> classify h = "Fresh".
Proof.
  intro Hgt. unfold classify.
  rewrite (above_24_positive _ Hgt), (ltb_not_leb _ _ Hgt). reflexivity.
Qed.

(** The three labels are the only classifications, and the first two
    are given only below their thresholds. *)
Lemma classify_cases (h : float) :
  (classify h = "Expired" /\ (h <=? 0)%float = true)
  \/ (classify h = "Stale" /\ (h <=? 0)%float = false /\ (h <=? 24)%float = true)
  \/ (classify h = "Fresh" /\ (h <=? 0)%float = false /\ (h <=? 24)%float = false).
Proof.
  unfold classify.
  destruct (h <=? 0)%float; [left; split; reflexivity|].
  destruct (h <=? 24)%float; [right; left|right; right]; repeat split.
Qed.

(** Conversely, "Expired" and "Stale" are given only within their
    thresholds; "Fresh" is given above 24 and to NaN. *)
Lemma classify_exact (h : float) :
  (classify h = "Expired" <-> (h <=? 0)%float = true)
  /\ (classify h = "Stale"
      <-> (0 <? h)%float = true /\ (h <=? 24)%float = true)
  /\ (classify h = "Fresh" <-> (h <=? 24)%float = false).
Proof.
  assert (Hpos : (h <=? 0)%float = false -> (h <=? 24)%float = true ->
                 (0 <? h)%float = true).
  { rewrite ltb_spec, !leb_spec.
    replace (Prim2SF 24) with (S754_finite false 6755399441055744 (-48))
      by reflexivity.
    replace (Prim2SF 0) with (S754_zero false) by reflexivity.
    unfold SFltb, SFleb.
    destruct (Prim2SF h) as [s|s| |[] m e];
      cbv beta iota delta [SFcompare]; intros; try discriminate;
      try reflexivity; destruct s; try discriminate; reflexivity. }
  assert (Hle : (h <=? 0)%float = true -> (h <=? 24)%float = true).
  { rewrite !leb_spec.
    replace (Prim2SF 24) with (S754_finite false 6755399441055744 (-48))
      by reflexivity.
    replace (Prim2SF 0) with (S754_zero false) by reflexivity.
    unfold SFleb.
    destruct (Prim2SF h) as [s|s| |[] m e];
      cbv beta iota delta [SFcompare]; intros; try discriminate;
      try reflexivity; destruct s; try discriminate; reflexivity. }
  unfold classify.
  destruct (h <=? 0)%float eqn:H0.
  - rewrite (Hle eq_refl). repeat split; try discriminate; try reflexivity.
    intros [Hlt _]. apply ltb_not_leb in Hlt. congruence.
  - destruct (h <=? 24)%float eqn:H24.
    + repeat split; try discriminate; try reflexivity.
      now apply Hpos.
    + repeat split; try discriminate; try reflexivity.
      intros [_ Hc]. discriminate Hc.
Qed.

Example classify_24 : classify 24 = "Stale".
Proof. reflexivity. Qed.

Example classify_just_above_24 : classify 0x1.800068db8bac7p+4 = "Fresh".
Proof. reflexivity. Qed.

Example classify_0 : classify 0 = "Expired".
Proof. reflexivity. Qed.

Example classify_nan : classify nan = "Fresh".
Proof. reflexivity. Qed.

(** ** Exceptions *)

Lemma isinstance_Exception (e : exn) : isinstance e Exception = true.
Proof. unfold isinstance. destruct (exn_type e); reflexivity. Qed.

(** ** The paths through [predict] *)

Section PredictPaths.
Context {B : Builtins}.
Variable st : state.

Ltac run_predict :=
  cbv beta delta [predict bindM read_model_loaded read_model ret].

Lemma predict_not_loaded (body : res pyval) :
  model_loaded st = false ->
  predict body st = (Respond (error_body "Model not loaded") 500, st).
Proof. intro Hl. run_predict. rewrite Hl. reflexivity. Qed.

Lemma predict_unparsed (e : exn) :
  model_loaded st = true -> predict (Raise e) st = (Propagate e, st).
Proof. intro Hl. run_predict. rewrite Hl. reflexivity. Qed.

Lemma predict_no_data (data : pyval) :
  model_loaded st = true -> truthy data = false ->
  predict (Ok data) st = (Respond (error_body "No data provided") 400, st).
Proof. intros Hl Hd. run_predict. rewrite Hl, Hd. reflexivity. Qed.

Lemma predict_membership_raises (data : pyval) (e : exn) :
  model_loaded st = true -> truthy data = true ->
  missing_fields data required_fields = Raise e ->
  predict (Ok data) st = (Propagate e, st).
Proof. intros Hl Hd Hm. run_predict. rewrite Hl, Hd, Hm. reflexivity. Qed.

Lemma predict_missing (data : pyval) (f : string) (fs : list string) :
  model_loaded st = true -> truthy data = true ->
  missing_fields data required_fields = Ok (f :: fs) ->
  predict (Ok data) st
  = (Respond (error_body ("Missing fields: " ++ concat ", " (f :: fs))) 400,
     st).
Proof. intros Hl Hd Hm. run_predict. rewrite Hl, Hd, Hm. reflexivity. Qed.

Lemma predict_complete (data : pyval) :
  model_loaded st = true -> truthy data = true ->
  missing_fields data required_fields = Ok [] ->
  predict (Ok data) st = (predict_guarded (model st) data, st).
Proof. intros Hl Hd Hm. run_predict. rewrite Hl, Hd, Hm. reflexivity. Qed.

(** The two [except] clauses: every exception ends in a response. *)
Lemma predict_guarded_raise (data : pyval) (e : exn) :
  predict_body (model st) data = Raise e ->
  predict_guarded (model st) data
  = if isinstance e ValueError
    then Respond (error_body ("Invalid input: " ++ exn_str e)) 400
    else Respond (error_body ("Prediction error: " ++ exn_str e)) 500.
Proof.
  intro Hb. unfold predict_guarded. rewrite Hb, isinstance_Exception.
  reflexivity.
Qed.

Lemma predict_guarded_ok (data : pyval) (x : features) (hours : float) :
  build_features data = Ok x -> predicted (model st) x = Ok hours ->
  predict_guarded (model st) data
  = Respond (VDict [("hours_until_expiry", VFloat hours);
                    ("classification", VStr (classify hours))]) 200.
Proof.
  intros Hx Hh. unfold predict_guarded, predict_body.
  rewrite Hx. cbv beta iota delta [bind]. rewrite Hh. reflexivity.
Qed.

Lemma predict_body_features_raise (data : pyval) (e : exn) :
  build_features data = Raise e -> predict_body (model st) data = Raise e.
Proof. intro Hx. unfold predict_body. rewrite Hx. reflexivity. Qed.

Lemma predict_body_model_raise (data : pyval) (x : features) (e : exn) :
  build_features data = Ok x -> predicted (model st) x = Raise e ->
  predict_body (model st) data = Raise e.
Proof.
  intros Hx Hh. unfold predict_body. rewrite Hx.
  cbv beta iota delta [bind]. rewrite Hh. reflexivity.
Qed.

(** A response with status 200 comes from the end of the [try] block. *)
Lemma predict_success_inv (body : res pyval) (response : pyval) :
  fst (predict body st) = Respond response 200 ->
  exists data x hours,
    body = Ok data
    /\ build_features data = Ok x
    /\ predicted (model st) x = Ok hours
    /\ response = VDict [("hours_until_expiry", VFloat hours);
                         ("classification", VStr (classify hours))].
Proof.
  destruct (model_loaded st) eqn:Hl;
    [|rewrite (predict_not_loaded body Hl); discriminate].
  destruct body as [data|e];
    [|rewrite (predict_unparsed e Hl); discriminate].
  destruct (truthy data) eqn:Hd;
    [|rewrite (predict_no_data data Hl Hd); discriminate].
  destruct (missing_fields data required_fields) as [[|f fs]|e] eqn:Hm;
    [|rewrite (predict_missing data f fs Hl Hd Hm); discriminate
     |rewrite (predict_membership_raises data e Hl Hd Hm); discriminate].
  rewrite (predict_complete data Hl Hd Hm). cbn [fst].
  destruct (build_features data) as [x|e] eqn:Hx.
  - destruct (predicted (model st) x) as [hours|e] eqn:Hh.
    + rewrite (predict_guarded_ok data x hours Hx Hh).
      intro Heq. injection Heq as Hresp.
      exists data, x, hours. repeat split; try assumption. now symmetry.
    + rewrite (predict_guarded_raise data e
                 (predict_body_model_raise data x e Hx Hh)).
      destruct (isinstance e ValueError); discriminate.
  - rewrite (predict_guarded_raise data e
               (predict_body_features_raise data e Hx)).
    destruct (isinstance e ValueError); discriminate.
Qed.
End PredictPaths.

(** C1: every successful prediction carries the classification the
    thresholds give: at most 0 hours is "Expired" (and only then), above 0
    and at most 24 is "Stale" (and only then), above 24 is "Fresh". *)
Theorem predict_classification_thresholds {B : Builtins} (st : state)
        (body : res pyval) (response : pyval) :
  fst (predict body st) = Respond response 200 ->
  exists hours label,
    response = VDict [("hours_until_expiry", VFloat hours);
                      ("classification", VStr label)]
    /\ ((hours <=? 0)%float = true <-> label = "Expired")
    /\ ((0 <? hours)%float = true /\ (hours <=? 24)%float = true
        <-> label = "Stale")
    /\ ((24 <? hours)%float = true -> label = "Fresh").
Proof.
  intro Hok.
  destruct (predict_success_inv st body response Hok)
    as (data & x & hours & _ & _ & _ & Hresp).
  exists hours, (classify hours).
  destruct (classify_exact hours) as (Hexpired & Hstale & _).
  split; [exact Hresp|].
  split; [now symmetry|].
  split; [now symmetry|apply classify_fresh].
Qed.

Lemma predict_classification_thresholds_witness :
  Sample.run_predict (Sample.serving (Sample.constant_model 24))
                     (VDict Sample.cheese_items)
  = Respond (VDict [("hours_until_expiry", VFloat 24);
                    ("classification", VStr "Stale")]) 200
  /\ exists hours label,
      VDict [("hours_until_expiry", VFloat 24); ("classification", VStr "Stale")]
      = VDict [("hours_until_expiry", VFloat hours);
               ("classification", VStr label)]
      /\ ((hours <=? 0)%float = true <-> label = "Expired")
      /\ ((0 <? hours)%float = true /\ (hours <=? 24)%float = true
          <-> label = "Stale")
      /\ ((24 <? hours)%float = true -> label = "Fresh").
Proof.
  split; [reflexivity|].
  apply (predict_classification_thresholds
           (B := Sample.builtins)
           (Sample.serving (Sample.constant_model 24))
           (Ok (VDict Sample.cheese_items))).
  reflexivity.
Defined.

(** ** Requests that reach the model *)

Section ReachingTheModel.
Context {B : Builtins}.

Lemma getitem_ok_inv (data : pyval) (k : string) (v : pyval) :
  getitem data k = Ok v ->
  exists items, data = VDict items /\ lookup k items = Some v.
Proof.
  destruct data as [| | | | |l|items]; try discriminate.
  unfold getitem. destruct (lookup k items) as [x|] eqn:Hk; [|discriminate].
  intro Heq. injection Heq as ->. now exists items.
Qed.

Lemma getitem_dict (items : list (string * pyval)) (k : string) (v : pyval) :
  lookup k items = Some v -> getitem (VDict items) k = Ok v.
Proof. intro Hk. unfold getitem. rewrite Hk. reflexivity. Qed.

Lemma contains_dict_present (items : list (string * pyval)) (k : string) :
  lookup k items <> None -> contains (VDict items) k = Ok true.
Proof.
  intro Hk. unfold contains. destruct (lookup k items); [reflexivity|].
  now contradiction Hk.
Qed.

(** A body with all five keys bound is non-empty and has no missing field. *)
Lemma complete_dict (items : list (string * pyval)) :
  (forall k, In k required_fields -> lookup k items <> None) ->
  truthy (VDict items) = true
  /\ missing_fields (VDict items) required_fields = Ok [].
Proof.
  intro Hall. split.
  - destruct items; [|reflexivity].
    exfalso. apply (Hall "temperature"); [now left|reflexivity].
  - unfold required_fields, missing_fields.
    repeat (rewrite contains_dict_present;
            [|apply Hall; unfold required_fields; simpl; tauto]).
    reflexivity.
Qed.

Lemma bind_ok_inv {X Y : Type} (r : res X) (k : X -> res Y) (y : Y) :
  bind r k = Ok y -> exists x, r = Ok x /\ k x = Ok y.
Proof. destruct r as [x|e]; [|discriminate]. intro Hk. now exists x. Qed.

(** The row is built only from a dict that binds all five keys. *)
Lemma build_features_ok_inv (data : pyval) (x : features) :
  build_features data = Ok x ->
  exists items,
    data = VDict items
    /\ forall k, In k required_fields -> lookup k items <> None.
Proof.
  unfold build_features. intro Hx.
  apply bind_ok_inv in Hx as (t & Ht & Hx).
  apply bind_ok_inv in Hx as (h & Hh & Hx).
  apply bind_ok_inv in Hx as (i & Hi & Hx).
  apply bind_ok_inv in Hx as (g & Hg & Hx).
  apply bind_ok_inv in Hx as (s & Hs & _).
  apply bind_ok_inv in Ht as (vt & Ht & _).
  apply bind_ok_inv in Hh as (vh & Hh & _).
  apply bind_ok_inv in Hi as (vi & Hi & _).
  apply getitem_ok_inv in Ht as (items & -> & Ht).
  exists items. split; [reflexivity|].
  apply getitem_ok_inv in Hh as (? & [= <-] & Hh).
  apply getitem_ok_inv in Hi as (? & [= <-] & Hi).
  apply getitem_ok_inv in Hg as (? & [= <-] & Hg).
  apply getitem_ok_inv in Hs as (? & [= <-] & Hs).
  intros k [<-|[<-|[<-|[<-|[<-|[]]]]]]; congruence.
Qed.

(** With the model loaded, a body from which the row is built is
    answered by the [try] block. *)
Lemma predict_reaches_model (st : state) (data : pyval) (x : features) :
  model_loaded st = true -> build_features data = Ok x ->
  predict (Ok data) st = (predict_guarded (model st) data, st).
Proof.
  intros Hl Hx.
  destruct (build_features_ok_inv data x Hx) as (items & -> & Hall).
  destruct (complete_dict items Hall) as [Hd Hm].
  now apply predict_complete.
Qed.
End ReachingTheModel.

(** C2 (as stated, refuted): a [ValueError] raised by the model on a
    well-formed request is answered 400 "Invalid input", not 500. *)
Lemma model_value_error_answered_400 :
  model_loaded (Sample.serving (Sample.failing_model Sample.unknown_category))
  = true
  /\ build_features (B := Sample.builtins) (VDict Sample.cheese_items)
     = Ok Sample.cheese_features
  /\ predicted (B := Sample.builtins)
       (model (Sample.serving (Sample.failing_model Sample.unknown_category)))
       Sample.cheese_features
     = Raise Sample.unknown_category
  /\ Sample.run_predict
       (Sample.serving (Sample.failing_model Sample.unknown_category))
       (VDict Sample.cheese_items)
     = Respond (error_body ("Invalid input: " ++ exn_str Sample.unknown_category))
               400
  /\ Sample.run_predict
       (Sample.serving (Sample.failing_model Sample.unknown_category))
       (VDict Sample.cheese_items)
     <> Respond (error_body
                   ("Prediction error: " ++ exn_str Sample.unknown_category))
                500.
Proof. repeat split; try reflexivity. discriminate. Qed.

(** C2 (amended): with the model loaded and the row built, an exception
    raised while invoking the model and reading its first value that is
    not a [ValueError] is answered 500 "Prediction error: <detail>". *)
Theorem prediction_exception_answered_500 {B : Builtins} (st : state)
        (data : pyval) (x : features) (e : exn) :
  model_loaded st = true ->
  build_features data = Ok x ->
  predicted (model st) x = Raise e ->
  isinstance e ValueError = false ->
  predict (Ok data) st
  = (Respond (error_body ("Prediction error: " ++ exn_str e)) 500, st).
Proof.
  intros Hl Hx Hh He.
  rewrite (predict_reaches_model st data x Hl Hx).
  rewrite (predict_guarded_raise st data e
             (predict_body_model_raise st data x e Hx Hh)).
  rewrite He. reflexivity.
Qed.

Lemma prediction_exception_answered_500_witness :
  predict (B := Sample.builtins) (Ok (VDict Sample.cheese_items))
          (Sample.serving (fun _ => Ok (VList [])))
  = (Respond (error_body "Prediction error: list index out of range") 500,
     Sample.serving (fun _ => Ok (VList []))).
Proof.
  apply (prediction_exception_answered_500
           (B := Sample.builtins)
           (Sample.serving (fun _ => Ok (VList [])))
           (VDict Sample.cheese_items) Sample.cheese_features
           (mk_exn IndexError "list index out of range"));
    reflexivity.
Defined.

(** ** The presence check on a JSON object *)

Lemma lookup_bound (k : string) (items : list (string * pyval)) :
  match lookup k items with Some _ => true | None => false end
  = existsb (String.eqb k) (keys items).
Proof.
  induction items as [|[k' v] rest IH]; [reflexivity|].
  simpl. rewrite (String.eqb_sym k k').
  destruct (k' =? k); [reflexivity|exact IH].
Qed.

Lemma bound_In (k : string) (items : list (string * pyval)) :
  existsb (String.eqb k) (keys items) = true <-> In k (keys items).
Proof.
  rewrite existsb_exists. split.
  - intros (k' & Hin & Heq). apply String.eqb_eq in Heq. now subst.
  - intro Hin. exists k. split; [exact Hin|apply String.eqb_refl].
Qed.

Lemma lookup_In (k : string) (items : list (string * pyval)) :
  lookup k items <> None <-> In k (keys items).
Proof.
  rewrite <- bound_In, <- lookup_bound.
  destruct (lookup k items); split; congruence.
Qed.

(** On an object, the comprehension keeps the unbound fields, in the
    order of [fields]. *)
Lemma missing_fields_dict (items : list (string * pyval)) (fields : list string) :
  missing_fields (VDict items) fields
  = Ok (filter (fun f => negb (existsb (String.eqb f) (keys items))) fields).
Proof.
  induction fields as [|f rest IH]; [reflexivity|].
  cbn [missing_fields filter]. rewrite IH.
  unfold contains. rewrite (lookup_bound f items).
  destruct (existsb (String.eqb f) (keys items)); reflexivity.
Qed.

Lemma absent_In (items : list (string * pyval)) (f : string) :
  In f (absent items) <-> In f required_fields /\ ~ In f (keys items).
Proof.
  unfold absent. rewrite filter_In, negb_true_iff, <- bound_In.
  destruct (existsb (String.eqb f) (keys items)); intuition congruence.
Qed.

Lemma absent_Permutation (items items' : list (string * pyval)) :
  Permutation items' items -> absent items' = absent items.
Proof.
  intro Hp. unfold absent. apply filter_ext. intro f. f_equal.
  assert (Hk : Permutation (keys items') (keys items))
    by (unfold keys; now apply Permutation_map).
  destruct (existsb (String.eqb f) (keys items)) eqn:Hb.
  - apply bound_In. apply bound_In in Hb.
    now apply (Permutation_in f (Permutation_sym Hk)).
  - destruct (existsb (String.eqb f) (keys items')) eqn:Hb'; [|reflexivity].
    apply bound_In in Hb'. apply (Permutation_in f Hk) in Hb'.
    apply bound_In in Hb'. congruence.
Qed.

Lemma predict_missing_dict {B : Builtins} (st : state)
      (items : list (string * pyval)) :
  model_loaded st = true -> items <> [] -> absent items <> [] ->
  predict (Ok (VDict items)) st
  = (Respond (error_body ("Missing fields: " ++ concat ", " (absent items))) 400,
     st).
Proof.
  intros Hl Hne Hab.
  assert (Hd : truthy (VDict items) = true)
    by (destruct items; [now contradiction Hne|reflexivity]).
  pose proof (missing_fields_dict items required_fields) as Hm.
  fold (absent items) in Hm.
  destruct (absent items) as [|f fs]; [now contradiction Hab|].
  now apply predict_missing.
Qed.

(** C3 (as stated, refuted): the empty object binds none of the five
    fields, and is answered "No data provided" rather than by the list of
    missing fields. *)
Lemma empty_object_not_reported_missing :
  absent [] = required_fields
  /\ Sample.run_predict (Sample.serving (Sample.constant_model 24)) (VDict [])
     = Respond (error_body "No data provided") 400
  /\ Sample.run_predict (Sample.serving (Sample.constant_model 24)) (VDict [])
     <> Respond (error_body ("Missing fields: " ++ concat ", " (absent []))) 400.
Proof. repeat split; try reflexivity. discriminate. Qed.

(** C3 (amended): with the model loaded, a non-empty JSON object that
    lacks at least one required field is answered 400 with "Missing
    fields: " and exactly the fields it lacks, comma-joined in declared
    order, whatever the order of its entries. *)
Theorem missing_fields_reported {B : Builtins} (st : state)
        (items : list (string * pyval)) :
  model_loaded st = true ->
  items <> [] ->
  (exists f, In f required_fields /\ ~ In f (keys items)) ->
  predict (Ok (VDict items)) st
  = (Respond (error_body ("Missing fields: " ++ concat ", " (absent items))) 400,
     st)
  /\ (forall f, In f (absent items) <-> In f required_fields /\ ~ In f (keys items))
  /\ (forall items', Permutation items' items ->
      predict (Ok (VDict items')) st = predict (Ok (VDict items)) st).
Proof.
  intros Hl Hne (f & Hreq & Hnot).
  assert (Hab : absent items <> []).
  { intro Hnil. pose proof (proj2 (absent_In items f) (conj Hreq Hnot)) as Hin.
    rewrite Hnil in Hin. exact Hin. }
  split; [now apply predict_missing_dict|].
  split; [apply absent_In|].
  intros items' Hp.
  rewrite (predict_missing_dict st items Hl Hne Hab).
  rewrite <- (absent_Permutation items items' Hp).
  apply predict_missing_dict; [exact Hl| |].
  - intros ->. apply Permutation_nil in Hp. now apply Hne.
  - now rewrite (absent_Permutation items items' Hp).
Qed.

Lemma missing_fields_reported_witness :
  predict (B := Sample.builtins)
          (Ok (VDict [("storage_type", VStr "fridge"); ("temperature", VInt 4);
                      ("ingredient_type", VStr "CHEESE")]))
          (Sample.serving (Sample.constant_model 24))
  = (Respond (error_body "Missing fields: humidity, time_in_refrigerator") 400,
     Sample.serving (Sample.constant_model 24)).
Proof.
  refine (proj1 (missing_fields_reported
                   (B := Sample.builtins)
                   (Sample.serving (Sample.constant_model 24))
                   [("storage_type", VStr "fridge"); ("temperature", VInt 4);
                    ("ingredient_type", VStr "CHEESE")] _ _ _)).
  - reflexivity.
  - discriminate.
  - exists "humidity". split; [simpl; tauto|].
    simpl. intros [H|[H|[H|[]]]]; discriminate H.
Defined.

(** C9: with the model loaded, the empty JSON object is answered 400
    "No data provided", and not by a list of the five missing fields. *)
Theorem empty_object_no_data {B : Builtins} (st : state) :
  model_loaded st = true ->
  predict (Ok (VDict [])) st
  = (Respond (error_body "No data provided") 400, st)
  /\ fst (predict (Ok (VDict [])) st)
     <> Respond (error_body ("Missing fields: " ++ concat ", " required_fields))
                400.
Proof.
  intro Hl. rewrite (predict_no_data st (VDict []) Hl eq_refl).
  split; [reflexivity|discriminate].
Qed.

Lemma empty_object_no_data_witness :
  predict (B := Sample.builtins) (Ok (VDict []))
          (Sample.serving (Sample.constant_model 24))
  = (Respond (error_body "No data provided") 400,
     Sample.serving (Sample.constant_model 24)).
Proof.
  exact (proj1 (empty_object_no_data
                  (B := Sample.builtins)
                  (Sample.serving (Sample.constant_model 24)) eq_refl)).
Defined.

(** ** Coercion of the numeric fields *)

Section Coercion.
Context {B : Builtins}.
Variable st : state.
Variable items : list (string * pyval).
Hypothesis loaded : model_loaded st = true.
Hypothesis complete : forall k, In k required_fields -> In k (keys items).

Lemma coerces_bind (k : string) :
  coerces items k ->
  exists y, bind (getitem (VDict items) k) float_of = Ok y.
Proof.
  intros (v & y & Hk & Hy). exists y.
  rewrite (getitem_dict items k v Hk). exact Hy.
Qed.

(** The first numeric field whose coercion raises decides how the row
    fails. *)
Lemma build_features_first_failure (before after : list string) (f : string)
      (v : pyval) (e : exn) :
  numeric_fields = (before ++ f :: after)%list ->
  (forall k, In k before -> coerces items k) ->
  lookup f items = Some v ->
  float_of v = Raise e ->
  build_features (VDict items) = Raise e.
Proof.
  intros Hsplit Hbefore Hf He.
  assert (Hfail : bind (getitem (VDict items) f) float_of = Raise e)
    by (rewrite (getitem_dict items f v Hf); exact He).
  unfold numeric_fields in Hsplit. unfold build_features.
  destruct before as [|b1 [|b2 [|b3 rest]]]; simpl in Hsplit.
  - injection Hsplit as <- _. rewrite Hfail. reflexivity.
  - injection Hsplit as <- <- _.
    destruct (coerces_bind "temperature" (Hbefore _ (or_introl eq_refl)))
      as (t & ->).
    cbv beta iota delta [bind] in Hfail |- *. rewrite Hfail. reflexivity.
  - injection Hsplit as <- <- <- _.
    destruct (coerces_bind "temperature" (Hbefore _ (or_introl eq_refl)))
      as (t & ->).
    destruct (coerces_bind "humidity"
                (Hbefore _ (or_intror (or_introl eq_refl)))) as (h & ->).
    cbv beta iota delta [bind] in Hfail |- *. rewrite Hfail. reflexivity.
  - injection Hsplit as _ _ _ Hrest. destruct rest; discriminate Hrest.
Qed.

Lemma predict_first_failure (before after : list string) (f : string)
      (v : pyval) (e : exn) :
  numeric_fields = (before ++ f :: after)%list ->
  (forall k, In k before -> coerces items k) ->
  lookup f items = Some v ->
  float_of v = Raise e ->
  predict (Ok (VDict items)) st
  = (if isinstance e ValueError
     then Respond (error_body ("Invalid input: " ++ exn_str e)) 400
     else Respond (error_body ("Prediction error: " ++ exn_str e)) 500,
     st).
Proof.
  intros Hsplit Hbefore Hf He.
  assert (Hall : forall k, In k required_fields -> lookup k items <> None)
    by (intros k Hk; apply lookup_In, complete, Hk).
  destruct (complete_dict items Hall) as [Hd Hm].
  rewrite (predict_complete st (VDict items) loaded Hd Hm).
  rewrite (predict_guarded_raise st (VDict items) e); [reflexivity|].
  apply predict_body_features_raise.
  exact (build_features_first_failure before after f v e Hsplit Hbefore Hf He).
Qed.
End Coercion.

(** C4 (as stated, refuted): a non-numeric humidity after a null
    temperature is answered 500. *)
Lemma non_numeric_after_null_answered_500 :
  lookup "humidity" Sample.null_then_text_items = Some (VStr "abc")
  /\ float_of_str (Builtins := Sample.builtins) "abc" = None
  /\ model_loaded (Sample.serving (Sample.constant_model 24)) = true
  /\ Sample.run_predict (Sample.serving (Sample.constant_model 24))
                        (VDict Sample.null_then_text_items)
     = Respond
         (error_body
            "Prediction error: float() argument must be a string or a real number, not 'NoneType'")
         500.
Proof. repeat split; reflexivity. Qed.

(** C4 (amended): with the model loaded, for a JSON object that binds all
    five fields, when a numeric field is a string [float] rejects and every
    numeric field evaluated before it coerces, the handler answers 400 with
    a message beginning "Invalid input:". *)
Theorem non_numeric_string_answered_400 {B : Builtins} (st : state)
        (items : list (string * pyval)) (before after : list string)
        (f s : string) :
  model_loaded st = true ->
  (forall k, In k required_fields -> In k (keys items)) ->
  numeric_fields = (before ++ f :: after)%list ->
  (forall k, In k before -> coerces items k) ->
  lookup f items = Some (VStr s) ->
  float_of_str s = None ->
  predict (Ok (VDict items)) st
  = (Respond (error_body ("Invalid input: "
                            ++ "could not convert string to float: "
                            ++ repr (VStr s))) 400,
     st).
Proof.
  intros Hl Hall Hsplit Hbefore Hf Hs.
  assert (He : float_of (VStr s)
               = Raise (mk_exn ValueError
                          ("could not convert string to float: " ++ repr (VStr s))))
    by (unfold float_of; rewrite Hs; reflexivity).
  exact (predict_first_failure st items Hl Hall before after f (VStr s) _
           Hsplit Hbefore Hf He).
Qed.

Lemma non_numeric_string_answered_400_witness :
  predict (B := Sample.builtins)
          (Ok (VDict [("temperature", VInt 4); ("humidity", VStr "abc");
                      ("time_in_refrigerator", VInt 10);
                      ("ingredient_type", VStr "CHEESE");
                      ("storage_type", VStr "fridge")]))
          (Sample.serving (Sample.constant_model 24))
  = (Respond
       (error_body "Invalid input: could not convert string to float: 'abc'")
       400,
     Sample.serving (Sample.constant_model 24)).
Proof.
  refine (non_numeric_string_answered_400
            (B := Sample.builtins)
            (Sample.serving (Sample.constant_model 24))
            [("temperature", VInt 4); ("humidity", VStr "abc");
             ("time_in_refrigerator", VInt 10);
             ("ingredient_type", VStr "CHEESE");
             ("storage_type", VStr "fridge")]
            ["temperature"] ["time_in_refrigerator"] "humidity" "abc"
            eq_refl _ eq_refl _ eq_refl eq_refl).
  - intros k Hk. simpl in Hk |- *.
    repeat (destruct Hk as [<-|Hk]; [tauto|]). contradiction.
  - intros k [<-|[]]. exists (VInt 4), 4%float. split; reflexivity.
Defined.

(** C10 (as stated, refuted): a null humidity after a non-numeric
    temperature is answered 400 "Invalid input". *)
Lemma null_after_non_numeric_answered_400 :
  lookup "humidity" Sample.text_then_null_items = Some VNone
  /\ contains (VDict Sample.text_then_null_items) "humidity" = Ok true
  /\ model_loaded (Sample.serving (Sample.constant_model 24)) = true
  /\ Sample.run_predict (Sample.serving (Sample.constant_model 24))
                        (VDict Sample.text_then_null_items)
     = Respond
         (error_body "Invalid input: could not convert string to float: 'abc'")
         400.
Proof. repeat split; reflexivity. Qed.

(** C10 (amended): with the model loaded, for a JSON object that binds
    all five fields, when a numeric field is null and every numeric field
    evaluated before it coerces, the presence check passes, [float] raises
    [TypeError], and the handler answers 500 "Prediction error: <detail>". *)
Theorem null_numeric_field_answered_500 {B : Builtins} (st : state)
        (items : list (string * pyval)) (before after : list string)
        (f : string) :
  model_loaded st = true ->
  (forall k, In k required_fields -> In k (keys items)) ->
  numeric_fields = (before ++ f :: after)%list ->
  (forall k, In k before -> coerces items k) ->
  lookup f items = Some VNone ->
  contains (VDict items) f = Ok true
  /\ missing_fields (VDict items) required_fields = Ok []
  /\ exists detail,
      float_of VNone = Raise (mk_exn TypeError detail)
      /\ predict (Ok (VDict items)) st
         = (Respond (error_body ("Prediction error: " ++ detail)) 500, st).
Proof.
  intros Hl Hall Hsplit Hbefore Hf.
  split; [apply contains_dict_present; congruence|].
  split.
  - apply complete_dict. intros k Hk. apply lookup_In, Hall, Hk.
  - eexists. split; [reflexivity|].
    exact (predict_first_failure st items Hl Hall before after f VNone _
             Hsplit Hbefore Hf eq_refl).
Qed.

Lemma null_numeric_field_answered_500_witness :
  predict (B := Sample.builtins) (Ok (VDict Sample.null_then_text_items))
          (Sample.serving (Sample.constant_model 24))
  = (Respond
       (error_body
          "Prediction error: float() argument must be a string or a real number, not 'NoneType'")
       500,
     Sample.serving (Sample.constant_model 24)).
Proof.
  assert (Hall : forall k, In k required_fields ->
                           In k (keys Sample.null_then_text_items)).
  { intros k Hk. simpl in Hk |- *.
    repeat (destruct Hk as [<-|Hk]; [tauto|]). contradiction. }
  destruct (null_numeric_field_answered_500
              (B := Sample.builtins)
              (Sample.serving (Sample.constant_model 24))
              Sample.null_then_text_items [] ["humidity"; "time_in_refrigerator"]
              "temperature" eq_refl Hall eq_refl
              (fun k Hk => match Hk with end) eq_refl)
    as (_ & _ & detail & Hraise & Hrun).
  injection Hraise as <-. exact Hrun.
Defined.

(** ** Loading the model *)

Lemma load_model_raise (e : exn) (model0 : option model_obj) :
  load_model (Raise e) model0 = (Ok false, model0).
Proof.
  unfold load_model. rewrite isinstance_Exception.
  destruct (isinstance e FileNotFoundError); reflexivity.
Qed.

(** C6: [load_model] never raises: a deserialized model gives [True] and
    is stored in [model]; file-not-found and every other error give
    [False] and leave [model] as it was. *)
Theorem load_model_never_raises (loaded : res model_obj)
        (model0 : option model_obj) :
  load_model loaded model0
  = match loaded with
    | Ok m => (Ok true, Some m)
    | Raise _ => (Ok false, model0)
    end.
Proof.
  destruct loaded as [m|e]; [reflexivity|apply load_model_raise].
Qed.

Lemma startup_loaded (m : model_obj) :
  startup (Ok m) = Ok (mk_state (Some m) true).
Proof. reflexivity. Qed.

Lemma startup_failed (e : exn) : startup (Raise e) = Ok (mk_state None false).
Proof.
  unfold startup. rewrite load_model_raise. reflexivity.
Qed.

(** ** Handlers leave the state alone *)

Section ReadOnly.
Context {B : Builtins}.

Lemma predict_state (body : res pyval) (st : state) :
  snd (predict body st) = st.
Proof.
  destruct (model_loaded st) eqn:Hl;
    [|now rewrite (predict_not_loaded st body Hl)].
  destruct body as [data|e]; [|now rewrite (predict_unparsed st e Hl)].
  destruct (truthy data) eqn:Hd;
    [|now rewrite (predict_no_data st data Hl Hd)].
  destruct (missing_fields data required_fields) as [[|f fs]|e] eqn:Hm.
  - now rewrite (predict_complete st data Hl Hd Hm).
  - now rewrite (predict_missing st data f fs Hl Hd Hm).
  - now rewrite (predict_membership_raises st data e Hl Hd Hm).
Qed.

Lemma handle_state (c : call) (st : state) : snd (handle c st) = st.
Proof. destruct c; [apply predict_state|reflexivity|reflexivity]. Qed.

Lemma serve_cons (c : call) (rest : list call) (st : state) :
  serve (c :: rest) st
  = (fst (handle c st) :: fst (serve rest (snd (handle c st))),
     snd (serve rest (snd (handle c st)))).
Proof.
  cbn [serve]. unfold bindM, ret.
  destruct (handle c st) as [o s1]. cbn [fst snd].
  destruct (serve rest s1) as [os s2]. reflexivity.
Qed.

Lemma serve_state (calls : list call) (st : state) :
  snd (serve calls st) = st.
Proof.
  induction calls as [|c rest IH]; [reflexivity|].
  rewrite serve_cons. cbn [snd]. rewrite handle_state. exact IH.
Qed.

Lemma serve_outcomes (calls : list call) (st : state) :
  fst (serve calls st) = map (fun c => fst (handle c st)) calls.
Proof.
  induction calls as [|c rest IH]; [reflexivity|].
  rewrite serve_cons. cbn [fst map]. rewrite handle_state, IH. reflexivity.
Qed.
End ReadOnly.

(** C8: no handler changes the process-wide state: after any sequence of
    calls to [/predict], [/health] and [/] the model and the flag are what
    they were, each call is answered as it would be on the initial state,
    and [/health] and [/] keep reporting the initial [model_loaded]. *)
Theorem handlers_preserve_state {B : Builtins} (calls : list call) (st : state) :
  snd (serve calls st) = st
  /\ model (snd (serve calls st)) = model st
  /\ model_loaded (snd (serve calls st)) = model_loaded st
  /\ fst (serve calls st) = map (fun c => fst (handle c st)) calls
  /\ fst (health (snd (serve calls st)))
     = Respond (VDict [("status", VStr "healthy");
                       ("model_loaded", VBool (model_loaded st))]) 200
  /\ fst (home (snd (serve calls st)))
     = Respond (VDict [("message",
                        VStr "Ingredient Expiry Prediction API is running!");
                       ("endpoints", VList [VStr "/predict"; VStr "/health"]);
                       ("model_loaded", VBool (model_loaded st))]) 200.
Proof.
  rewrite serve_state, serve_outcomes. repeat split.
Qed.

(** C5: when loading failed at startup, [/predict] answers 500 "Model not
    loaded" for every body, parsed or not, and [/health] answers 200 with
    [model_loaded] false. *)
Theorem model_not_loaded_fails_fast {B : Builtins} (e : exn)
        (earlier : list call) (body : res pyval) :
  startup (Raise e) = Ok (mk_state None false)
  /\ predict body (mk_state None false)
     = (Respond (error_body "Model not loaded") 500, mk_state None false)
  /\ health (mk_state None false)
     = (Respond (VDict [("status", VStr "healthy");
                        ("model_loaded", VBool false)]) 200,
        mk_state None false)
  /\ fst (predict body (snd (serve earlier (mk_state None false))))
     = Respond (error_body "Model not loaded") 500
  /\ fst (health (snd (serve earlier (mk_state None false))))
     = Respond (VDict [("status", VStr "healthy");
                       ("model_loaded", VBool false)]) 200.
Proof.
  rewrite serve_state.
  split; [apply startup_failed|].
  rewrite (predict_not_loaded (mk_state None false) body eq_refl).
  repeat split.
Qed.

(** ** Case of the storage type *)

Lemma upper_lower_ascii (c : ascii) : upper_ascii (lower_ascii c) = upper_ascii c.
Proof.
  destruct c as [[] [] [] [] [] [] [] []]; reflexivity.
Qed.

Lemma lower_upper_ascii (c : ascii) : lower_ascii (upper_ascii c) = lower_ascii c.
Proof.
  destruct c as [[] [] [] [] [] [] [] []]; reflexivity.
Qed.

Lemma upper_ascii_is_ascii (c : ascii) :
  is_ascii_char (upper_ascii c) = is_ascii_char c.
Proof.
  destruct c as [[] [] [] [] [] [] [] []]; reflexivity.
Qed.

Lemma upper_ascii_not_lowercase (c : ascii) :
  ((97 <=? N_of_ascii (upper_ascii c)) && (N_of_ascii (upper_ascii c) <=? 122))%N
  = false.
Proof.
  destruct c as [[] [] [] [] [] [] [] []]; reflexivity.
Qed.

Lemma ascii_upper_lower (s : string) : ascii_upper (ascii_lower s) = ascii_upper s.
Proof.
  induction s as [|c rest IH]; [reflexivity|].
  cbn [ascii_lower ascii_upper]. rewrite upper_lower_ascii, IH. reflexivity.
Qed.

Lemma ascii_lower_upper (s : string) : ascii_lower (ascii_upper s) = ascii_lower s.
Proof.
  induction s as [|c rest IH]; [reflexivity|].
  cbn [ascii_lower ascii_upper]. rewrite lower_upper_ascii, IH. reflexivity.
Qed.

Lemma ascii_upper_is_ascii (s : string) : is_ascii (ascii_upper s) = is_ascii s.
Proof.
  induction s as [|c rest IH]; [reflexivity|].
  cbn [ascii_upper is_ascii]. rewrite upper_ascii_is_ascii, IH. reflexivity.
Qed.

Lemma ascii_upper_no_lowercase (s : string) :
  has_lowercase (ascii_upper s) = false.
Proof.
  induction s as [|c rest IH]; [reflexivity|].
  cbn [ascii_upper has_lowercase]. rewrite upper_ascii_not_lowercase, IH.
  reflexivity.
Qed.

Lemma ascii_upper_length (s : string) :
  String.length (ascii_upper s) = String.length s.
Proof.
  induction s as [|c rest IH]; [reflexivity|].
  cbn [ascii_upper String.length]. now rewrite IH.
Qed.

Section AsciiCase.
Context {B : Builtins}.

Lemma upper_of_ascii (s : string) : is_ascii s = true -> upper s = ascii_upper s.
Proof. intro Ha. unfold upper. now rewrite Ha. Qed.

Lemma lower_of_ascii (s : string) : is_ascii s = true -> lower s = ascii_lower s.
Proof. intro Ha. unfold lower. now rewrite Ha. Qed.

Lemma upper_same_ignoring_case (s1 s2 : string) :
  is_ascii s1 = true -> is_ascii s2 = true ->
  same_ignoring_case s1 s2 -> upper s1 = upper s2.
Proof.
  unfold same_ignoring_case. intros H1 H2 Hl.
  rewrite (lower_of_ascii s1 H1), (lower_of_ascii s2 H2) in Hl.
  rewrite (upper_of_ascii s1 H1), (upper_of_ascii s2 H2).
  rewrite <- (ascii_upper_lower s1), <- (ascii_upper_lower s2), Hl.
  reflexivity.
Qed.

(** The upper-case form of an ASCII string: equal to it up to case,
    without lower-case letters, of the same length, and unchanged by
    another [upper]. *)
Lemma upper_of_ascii_spec (s : string) :
  is_ascii s = true ->
  same_ignoring_case (upper s) s
  /\ has_lowercase (upper s) = false
  /\ String.length (upper s) = String.length s
  /\ upper (upper s) = upper s.
Proof.
  intro Ha. rewrite (upper_of_ascii s Ha).
  assert (Hu : is_ascii (ascii_upper s) = true)
    by now rewrite ascii_upper_is_ascii.
  split.
  { unfold same_ignoring_case.
    rewrite (lower_of_ascii _ Hu), (lower_of_ascii s Ha).
    apply ascii_lower_upper. }
  split; [apply ascii_upper_no_lowercase|].
  split; [apply ascii_upper_length|].
  rewrite (upper_of_ascii _ Hu).
  rewrite <- (ascii_upper_lower (ascii_upper s)), ascii_lower_upper.
  apply ascii_upper_lower.
Qed.
End AsciiCase.

Section StorageCase.
Context {B : Builtins}.
Variables items1 items2 : list (string * pyval).
Variables s1 s2 : string.
Hypothesis storage1 : lookup "storage_type" items1 = Some (VStr s1).
Hypothesis storage2 : lookup "storage_type" items2 = Some (VStr s2).
Hypothesis ascii1 : is_ascii s1 = true.
Hypothesis ascii2 : is_ascii s2 = true.
Hypothesis same_case : same_ignoring_case s1 s2.
Hypothesis same_rest : agree_except "storage_type" items1 items2.

Lemma getitem_agree (k : string) :
  k <> "storage_type" -> getitem (VDict items1) k = getitem (VDict items2) k.
Proof. intro Hk. unfold getitem. rewrite (same_rest k Hk). reflexivity. Qed.

Lemma build_features_agree :
  build_features (VDict items1) = build_features (VDict items2).
Proof.
  unfold build_features.
  rewrite (getitem_agree "temperature") by discriminate.
  rewrite (getitem_agree "humidity") by discriminate.
  rewrite (getitem_agree "time_in_refrigerator") by discriminate.
  rewrite (getitem_agree "ingredient_type") by discriminate.
  rewrite (getitem_dict items1 _ _ storage1), (getitem_dict items2 _ _ storage2).
  cbn [bind str].
  rewrite (upper_same_ignoring_case s1 s2 ascii1 ascii2 same_case).
  reflexivity.
Qed.

Lemma contains_agree (k : string) :
  contains (VDict items1) k = contains (VDict items2) k.
Proof.
  unfold contains. destruct (String.eqb_spec k "storage_type") as [->|Hk].
  - rewrite storage1, storage2. reflexivity.
  - rewrite (same_rest k Hk). reflexivity.
Qed.

Lemma missing_fields_agree (fields : list string) :
  missing_fields (VDict items1) fields = missing_fields (VDict items2) fields.
Proof.
  induction fields as [|f rest IH]; [reflexivity|].
  cbn [missing_fields]. rewrite contains_agree, IH. reflexivity.
Qed.

Lemma truthy_agree : truthy (VDict items1) = truthy (VDict items2).
Proof.
  destruct items1; [discriminate storage1|].
  destruct items2; [discriminate storage2|]. reflexivity.
Qed.

Lemma predict_agree (st : state) :
  predict (Ok (VDict items1)) st = predict (Ok (VDict items2)) st.
Proof.
  cbv beta iota delta [predict bindM read_model_loaded read_model ret
                       predict_guarded predict_body].
  rewrite truthy_agree, (missing_fields_agree required_fields),
    build_features_agree.
  reflexivity.
Qed.
End StorageCase.

(** C7 (as stated, refuted): the small sharp s (U+00DF) and its capital
    (U+1E9E) differ only in letter case, yet [str.upper] turns the first
    into SS and keeps the second: the two requests give the model
    different rows, and a model that tells them apart answers them
    differently. *)
Lemma sharp_s_variants_rows_differ :
  agree_except "storage_type" (Sample.stored_in Sample.sharp_s)
               (Sample.stored_in Sample.capital_sharp_s)
  /\ same_ignoring_case (B := Sample.builtins)
       Sample.sharp_s Sample.capital_sharp_s
  /\ build_features (B := Sample.builtins)
       (VDict (Sample.stored_in Sample.sharp_s))
     = Ok (mk_features 4 65 10 "CHEESE" "SS")
  /\ build_features (B := Sample.builtins)
       (VDict (Sample.stored_in Sample.capital_sharp_s))
     = Ok (mk_features 4 65 10 "CHEESE" Sample.capital_sharp_s)
  /\ Sample.run_predict (Sample.serving Sample.storage_model)
       (VDict (Sample.stored_in Sample.sharp_s))
     = Respond (success_body 30) 200
  /\ Sample.run_predict (Sample.serving Sample.storage_model)
       (VDict (Sample.stored_in Sample.capital_sharp_s))
     = Respond (success_body 10) 200
  /\ success_body 30 <> success_body 10.
Proof.
  split.
  { intros k Hk. unfold Sample.stored_in. cbn [lookup].
    destruct (String.eqb_spec "storage_type" k) as [<-|_];
      [now contradiction Hk|reflexivity]. }
  repeat split; try reflexivity. discriminate.
Qed.

(** C7 (amended): two requests that differ only in the letter case of
    their [storage_type], both ASCII strings, give the model the same row
    and are answered alike; the row's [storage_type] is the upper-case
    form of the one sent: equal to it up to case, without lower-case
    letters and of the same length. *)
Theorem storage_type_case_normalized {B : Builtins} (st : state)
        (items1 items2 : list (string * pyval)) (s1 s2 : string) :
  lookup "storage_type" items1 = Some (VStr s1) ->
  lookup "storage_type" items2 = Some (VStr s2) ->
  is_ascii s1 = true ->
  is_ascii s2 = true ->
  same_ignoring_case s1 s2 ->
  agree_except "storage_type" items1 items2 ->
  build_features (VDict items1) = build_features (VDict items2)
  /\ (forall x, build_features (VDict items1) = Ok x ->
      storage_type x = upper s1
      /\ storage_type x = upper s2
      /\ same_ignoring_case (storage_type x) s1
      /\ has_lowercase (storage_type x) = false
      /\ String.length (storage_type x) = String.length s1)
  /\ predict (Ok (VDict items1)) st = predict (Ok (VDict items2)) st.
Proof.
  intros H1 H2 Ha1 Ha2 Hcase Hrest.
  split; [now apply (build_features_agree items1 items2 s1 s2)|].
  split; [|now apply (predict_agree items1 items2 s1 s2)].
  intros x Hx.
  assert (Hs : storage_type x = upper s1).
  { unfold build_features in Hx.
    apply bind_ok_inv in Hx as (t & _ & Hx).
    apply bind_ok_inv in Hx as (h & _ & Hx).
    apply bind_ok_inv in Hx as (i & _ & Hx).
    apply bind_ok_inv in Hx as (g & _ & Hx).
    apply bind_ok_inv in Hx as (s & Hs & Hx).
    rewrite (getitem_dict items1 _ _ H1) in Hs.
    injection Hs as <-. injection Hx as <-. reflexivity. }
  destruct (upper_of_ascii_spec s1 Ha1) as (Hsame & Hlow & Hlen & _).
  rewrite Hs.
  split; [reflexivity|].
  split; [now apply upper_same_ignoring_case|].
  repeat split; assumption.
Qed.

Lemma storage_type_case_normalized_witness :
  build_features (B := Sample.builtins) (VDict Sample.cheese_items)
  = build_features (B := Sample.builtins)
      (VDict [("storage_type", VStr "FRIDGE"); ("temperature", VInt 4);
              ("humidity", VInt 65); ("time_in_refrigerator", VInt 10);
              ("ingredient_type", VStr "CHEESE")])
  /\ (forall x,
      build_features (B := Sample.builtins) (VDict Sample.cheese_items) = Ok x ->
      storage_type x = "FRIDGE"
      /\ has_lowercase (storage_type x) = false)
  /\ predict (B := Sample.builtins) (Ok (VDict Sample.cheese_items))
             (Sample.serving (Sample.constant_model 30))
     = predict (B := Sample.builtins)
         (Ok (VDict [("storage_type", VStr "FRIDGE"); ("temperature", VInt 4);
                     ("humidity", VInt 65); ("time_in_refrigerator", VInt 10);
                     ("ingredient_type", VStr "CHEESE")]))
         (Sample.serving (Sample.constant_model 30)).
Proof.
  assert (Hrest : agree_except "storage_type" Sample.cheese_items
                    [("storage_type", VStr "FRIDGE"); ("temperature", VInt 4);
                     ("humidity", VInt 65); ("time_in_refrigerator", VInt 10);
                     ("ingredient_type", VStr "CHEESE")]).
  { intros k Hk. unfold Sample.cheese_items. cbn [lookup].
    destruct (String.eqb_spec "storage_type" k) as [<-|_];
      [now contradiction Hk|].
    repeat match goal with
           | |- context [String.eqb ?a k] => destruct (String.eqb a k)
           end; reflexivity. }
  destruct (storage_type_case_normalized
              (B := Sample.builtins)
              (Sample.serving (Sample.constant_model 30))
              Sample.cheese_items
              [("storage_type", VStr "FRIDGE"); ("temperature", VInt 4);
               ("humidity", VInt 65); ("time_in_refrigerator", VInt 10);
               ("ingredient_type", VStr "CHEESE")]
              "fridge" "FRIDGE" eq_refl eq_refl eq_refl eq_refl eq_refl Hrest)
    as (Hrow & Hpin & Hrun).
  split; [exact Hrow|]. split; [|exact Hrun].
  intros x Hx. destruct (Hpin x Hx) as (_ & Hup & _ & Hlow & _).
  split; [exact Hup|exact Hlow].
Defined.

(** * Further properties of the handlers *)

(** ** Bodies the membership test accepts *)

Lemma missing_fields_container (data : pyval) (fields : list string) :
  is_container data = true -> exists ms, missing_fields data fields = Ok ms.
Proof.
  intro Hc. induction fields as [|f rest [ms IH]]; [now exists []|].
  cbn [missing_fields]. rewrite IH.
  destruct data; try discriminate Hc; cbn [contains bind]; eexists; reflexivity.
Qed.

Lemma missing_fields_scalar (data : pyval) :
  is_container data = false ->
  missing_fields data required_fields
  = Raise (mk_exn TypeError
             ("argument of type '" ++ type_name data ++ "' is not iterable")).
Proof. destruct data; try discriminate; reflexivity. Qed.

(** What the [try] block answers. *)
Lemma predict_guarded_shape {B : Builtins} (m : option model_obj) (data : pyval) :
  (exists msg, predict_guarded m data = Respond (error_body msg) 400)
  \/ (exists msg, predict_guarded m data = Respond (error_body msg) 500)
  \/ (exists hours, predict_guarded m data = Respond (success_body hours) 200).
Proof.
  unfold predict_guarded, predict_body.
  destruct (build_features data) as [x|e]; cbn [bind].
  - destruct (predicted m x) as [hours|e]; cbn [bind].
    + right; right. now exists hours.
    + rewrite isinstance_Exception.
      destruct (isinstance e ValueError); [left|right; left]; eexists; reflexivity.
  - rewrite isinstance_Exception.
    destruct (isinstance e ValueError); [left|right; left]; eexists; reflexivity.
Qed.

(** X1: every call of [predict] ends in an error body with status 400 or
    500, or in a full success body with status 200; an exception escapes
    the handler only with the model loaded, when reading the body raised
    or the body is not a dict, list or string. *)
Theorem predict_outcome_shape {B : Builtins} (st : state) (body : res pyval) :
  (exists msg, fst (predict body st) = Respond (error_body msg) 400)
  \/ (exists msg, fst (predict body st) = Respond (error_body msg) 500)
  \/ (exists hours, fst (predict body st) = Respond (success_body hours) 200)
  \/ (exists e,
        fst (predict body st) = Propagate e
        /\ model_loaded st = true
        /\ (body = Raise e
            \/ exists data, body = Ok data /\ is_container data = false)).
Proof.
  destruct (model_loaded st) eqn:Hl;
    [|rewrite (predict_not_loaded st body Hl); right; left; eexists; reflexivity].
  destruct body as [data|e].
  2:{ rewrite (predict_unparsed st e Hl). right; right; right.
      exists e. repeat split. now left. }
  destruct (truthy data) eqn:Hd;
    [|rewrite (predict_no_data st data Hl Hd); left; eexists; reflexivity].
  destruct (missing_fields data required_fields) as [[|f fs]|e] eqn:Hm.
  - rewrite (predict_complete st data Hl Hd Hm). cbn [fst].
    destruct (predict_guarded_shape (model st) data) as [H4|[H5|H2]]; tauto.
  - rewrite (predict_missing st data f fs Hl Hd Hm). left. eexists. reflexivity.
  - rewrite (predict_membership_raises st data e Hl Hd Hm).
    right; right; right. exists e. repeat split. right. exists data.
    split; [reflexivity|].
    destruct (is_container data) eqn:Hc; [|reflexivity].
    destruct (missing_fields_container data required_fields Hc) as [ms Hms].
    congruence.
Qed.

(** X2: with the model loaded, a body that is a non-zero number or [true]
    passes the emptiness test and makes the membership test raise
    [TypeError] outside the [try] block: the exception escapes the
    handler. *)
Theorem scalar_body_escapes {B : Builtins} (st : state) (data : pyval) :
  model_loaded st = true ->
  truthy data = true ->
  is_container data = false ->
  predict (Ok data) st
  = (Propagate (mk_exn TypeError
                  ("argument of type '" ++ type_name data ++ "' is not iterable")),
     st).
Proof.
  intros Hl Hd Hc.
  exact (predict_membership_raises st data _ Hl Hd (missing_fields_scalar data Hc)).
Qed.

Lemma scalar_body_escapes_witness :
  predict (B := Sample.builtins) (Ok (VInt 5))
          (Sample.serving (Sample.constant_model 24))
  = (Propagate (mk_exn TypeError "argument of type 'int' is not iterable"),
     Sample.serving (Sample.constant_model 24)).
Proof.
  exact (scalar_body_escapes (B := Sample.builtins)
           (Sample.serving (Sample.constant_model 24)) (VInt 5)
           eq_refl eq_refl eq_refl).
Defined.

(** ** Empty bodies *)

Lemma falsy_values (data : pyval) :
  truthy data = false
  <-> data = VNone \/ data = VBool false \/ data = VInt 0
      \/ (exists f, data = VFloat f /\ (f =? 0)%float = true)
      \/ data = VStr "" \/ data = VList [] \/ data = VDict [].
Proof.
  split.
  - destruct data as [|b|z|f|s|l|items]; cbn [truthy]; intro Hf.
    + tauto.
    + destruct b; [discriminate|tauto].
    + apply negb_false_iff, Z.eqb_eq in Hf. subst. tauto.
    + apply negb_false_iff in Hf. right; right; right; left. now exists f.
    + apply negb_false_iff, String.eqb_eq in Hf. subst. tauto.
    + destruct l; [tauto|discriminate].
    + destruct items; [tauto|discriminate].
  - intros [->|[->|[->|[(f & -> & Hf)|[->|[->| ->]]]]]]; try reflexivity.
    cbn [truthy]. now rewrite Hf.
Qed.

(** X3: with the model loaded, "No data provided" is the answer to
    exactly the bodies Python counts as false: null, false, 0, 0.0 and
    -0.0, the empty string, the empty array and the empty object. *)
Theorem no_data_iff_falsy {B : Builtins} (st : state) (data : pyval) :
  model_loaded st = true ->
  (fst (predict (Ok data) st) = Respond (error_body "No data provided") 400
   <-> truthy data = false)
  /\ (truthy data = false
      <-> data = VNone \/ data = VBool false \/ data = VInt 0
          \/ (exists f, data = VFloat f /\ (f =? 0)%float = true)
          \/ data = VStr "" \/ data = VList [] \/ data = VDict []).
Proof.
  intro Hl. split; [|apply falsy_values].
  split; [|intro Hd; now rewrite (predict_no_data st data Hl Hd)].
  destruct (truthy data) eqn:Hd; [|reflexivity].
  destruct (missing_fields data required_fields) as [[|f fs]|e] eqn:Hm.
  - rewrite (predict_complete st data Hl Hd Hm). cbn [fst].
    unfold predict_guarded, predict_body.
    destruct (build_features data) as [x|e]; cbn [bind].
    + destruct (predicted (model st) x) as [hours|e]; cbn [bind];
        [discriminate|].
      rewrite isinstance_Exception.
      destruct (isinstance e ValueError); discriminate.
    + rewrite isinstance_Exception.
      destruct (isinstance e ValueError); discriminate.
  - rewrite (predict_missing st data f fs Hl Hd Hm). discriminate.
  - rewrite (predict_membership_raises st data e Hl Hd Hm). discriminate.
Qed.

Lemma no_data_iff_falsy_witness :
  fst (predict (B := Sample.builtins) (Ok (VFloat (-0)))
               (Sample.serving (Sample.constant_model 24)))
  = Respond (error_body "No data provided") 400.
Proof.
  apply (proj1 (no_data_iff_falsy (B := Sample.builtins)
                  (Sample.serving (Sample.constant_model 24))
                  (VFloat (-0)) eq_refl)).
  reflexivity.
Defined.

(** ** The row handed to the model *)

Lemma build_features_inv {B : Builtins} (data : pyval) (x : features) :
  build_features data = Ok x ->
  exists items vt vh vi g s,
    data = VDict items
    /\ lookup "temperature" items = Some vt
    /\ float_of vt = Ok (temperature x)
    /\ lookup "humidity" items = Some vh
    /\ float_of vh = Ok (humidity x)
    /\ lookup "time_in_refrigerator" items = Some vi
    /\ float_of vi = Ok (time_in_inventory x)
    /\ lookup "ingredient_type" items = Some g
    /\ ingredient_type x = str g
    /\ lookup "storage_type" items = Some s
    /\ storage_type x = upper (str s).
Proof.
  unfold build_features. intro Hx.
  apply bind_ok_inv in Hx as (t & Ht & Hx).
  apply bind_ok_inv in Hx as (h & Hh & Hx).
  apply bind_ok_inv in Hx as (i & Hi & Hx).
  apply bind_ok_inv in Hx as (g & Hg & Hx).
  apply bind_ok_inv in Hx as (s & Hs & Hx).
  apply bind_ok_inv in Ht as (vt & Ht & Hft).
  apply bind_ok_inv in Hh as (vh & Hh & Hfh).
  apply bind_ok_inv in Hi as (vi & Hi & Hfi).
  apply getitem_ok_inv in Ht as (items & -> & Ht).
  apply getitem_ok_inv in Hh as (? & [= <-] & Hh).
  apply getitem_ok_inv in Hi as (? & [= <-] & Hi).
  apply getitem_ok_inv in Hg as (? & [= <-] & Hg).
  apply getitem_ok_inv in Hs as (? & [= <-] & Hs).
  injection Hx as <-. cbn.
  exists items, vt, vh, vi, g, s. repeat split; assumption.
Qed.

Lemma build_features_dict {B : Builtins} (items : list (string * pyval))
      (vt vh vi g s : pyval) (t h i : float) :
  lookup "temperature" items = Some vt -> float_of vt = Ok t ->
  lookup "humidity" items = Some vh -> float_of vh = Ok h ->
  lookup "time_in_refrigerator" items = Some vi -> float_of vi = Ok i ->
  lookup "ingredient_type" items = Some g ->
  lookup "storage_type" items = Some s ->
  build_features (VDict items) = Ok (mk_features t h i (str g) (upper (str s))).
Proof.
  intros Ht Hft Hh Hfh Hi Hfi Hg Hs. unfold build_features.
  rewrite (getitem_dict items _ _ Ht), (getitem_dict items _ _ Hh),
    (getitem_dict items _ _ Hi), (getitem_dict items _ _ Hg),
    (getitem_dict items _ _ Hs).
  cbn [bind]. rewrite Hft. cbn [bind]. rewrite Hfh. cbn [bind].
  rewrite Hfi. reflexivity.
Qed.

(** X4: whenever the row is built, the body is a JSON object, the three
    numeric entries of the row are [float] of the object's [temperature],
    [humidity] and [time_in_refrigerator] (the last under the name
    [time_in_inventory]), [ingredient_type] is passed as it prints, and
    [storage_type] is the upper-cased print of the one sent; when that
    is ASCII, the row's [storage_type] equals it up to case, has no
    lower-case letter, has its length, and upper-casing it again changes
    nothing. *)
Theorem built_row_contents {B : Builtins} (data : pyval) (x : features) :
  build_features data = Ok x ->
  exists items vt vh vi g s,
    data = VDict items
    /\ lookup "temperature" items = Some vt
    /\ float_of vt = Ok (temperature x)
    /\ lookup "humidity" items = Some vh
    /\ float_of vh = Ok (humidity x)
    /\ lookup "time_in_refrigerator" items = Some vi
    /\ float_of vi = Ok (time_in_inventory x)
    /\ lookup "ingredient_type" items = Some g
    /\ ingredient_type x = str g
    /\ lookup "storage_type" items = Some s
    /\ storage_type x = upper (str s)
    /\ (is_ascii (str s) = true ->
        same_ignoring_case (storage_type x) (str s)
        /\ has_lowercase (storage_type x) = false
        /\ String.length (storage_type x) = String.length (str s)
        /\ upper (storage_type x) = storage_type x).
Proof.
  intro Hx.
  destruct (build_features_inv data x Hx)
    as (items & vt & vh & vi & g & s & Hd & Ht & Hft & Hh & Hfh & Hi & Hfi
        & Hg & Hgx & Hs & Hsx).
  exists items, vt, vh, vi, g, s.
  repeat (split; [assumption|]).
  rewrite Hsx. apply upper_of_ascii_spec.
Qed.

Lemma built_row_contents_witness :
  exists items vt vh vi g s,
    VDict Sample.cheese_items = VDict items
    /\ lookup "temperature" items = Some vt
    /\ float_of (B := Sample.builtins) vt = Ok (temperature Sample.cheese_features)
    /\ lookup "humidity" items = Some vh
    /\ float_of (B := Sample.builtins) vh = Ok (humidity Sample.cheese_features)
    /\ lookup "time_in_refrigerator" items = Some vi
    /\ float_of (B := Sample.builtins) vi
       = Ok (time_in_inventory Sample.cheese_features)
    /\ lookup "ingredient_type" items = Some g
    /\ ingredient_type Sample.cheese_features = str (B := Sample.builtins) g
    /\ lookup "storage_type" items = Some s
    /\ storage_type Sample.cheese_features
       = upper (B := Sample.builtins) (str (B := Sample.builtins) s)
    /\ (is_ascii (str (B := Sample.builtins) s) = true ->
        same_ignoring_case (B := Sample.builtins)
          (storage_type Sample.cheese_features) (str (B := Sample.builtins) s)
        /\ has_lowercase (storage_type Sample.cheese_features) = false
        /\ String.length (storage_type Sample.cheese_features)
           = String.length (str (B := Sample.builtins) s)
        /\ upper (B := Sample.builtins) (storage_type Sample.cheese_features)
           = storage_type Sample.cheese_features).
Proof.
  exact (built_row_contents (B := Sample.builtins) (VDict Sample.cheese_items)
           Sample.cheese_features eq_refl).
Defined.

(** X5: with the model loaded, a JSON object whose three numeric fields
    coerce and whose two text fields are bound, and a model that returns
    an array starting with a float, give status 200 with those hours and
    their classification; the model is called on the row with
    [time_in_refrigerator] renamed and [storage_type] upper-cased. *)
Theorem predict_success {B : Builtins} (st : state) (m : model_obj)
        (items : list (string * pyval)) (vt vh vi g s : pyval)
        (t h i hours : float) (rest : list pyval) :
  model_loaded st = true ->
  model st = Some m ->
  lookup "temperature" items = Some vt -> float_of vt = Ok t ->
  lookup "humidity" items = Some vh -> float_of vh = Ok h ->
  lookup "time_in_refrigerator" items = Some vi -> float_of vi = Ok i ->
  lookup "ingredient_type" items = Some g ->
  lookup "storage_type" items = Some s ->
  m (mk_features t h i (str g) (upper (str s))) = Ok (VList (VFloat hours :: rest)) ->
  predict (Ok (VDict items)) st = (Respond (success_body hours) 200, st).
Proof.
  intros Hl Hm Ht Hft Hh Hfh Hi Hfi Hg Hs Hout.
  pose proof (build_features_dict items vt vh vi g s t h i
                Ht Hft Hh Hfh Hi Hfi Hg Hs) as Hx.
  rewrite (predict_reaches_model st (VDict items) _ Hl Hx).
  rewrite (predict_guarded_ok st (VDict items) _ hours Hx); [reflexivity|].
  unfold predicted, model_predict. rewrite Hm, Hout. reflexivity.
Qed.

Lemma predict_success_witness :
  predict (B := Sample.builtins) (Ok (VDict Sample.cheese_items))
          (Sample.serving (Sample.constant_model 30))
  = (Respond (success_body 30) 200, Sample.serving (Sample.constant_model 30)).
Proof.
  exact (predict_success (B := Sample.builtins)
           (Sample.serving (Sample.constant_model 30))
           (Sample.constant_model 30) Sample.cheese_items
           (VInt 4) (VInt 65) (VInt 10) (VStr "CHEESE") (VStr "fridge")
           4 65 10 30 []
           eq_refl eq_refl eq_refl eq_refl eq_refl eq_refl eq_refl eq_refl
           eq_refl eq_refl eq_refl).
Defined.

(** X6: status 200 is given only with the model loaded, to a JSON
    object that binds all five fields and whose numeric fields coerce,
    after the stored model was called on the row and its first value
    coerced to the hours reported. *)
Theorem success_requires_complete_object {B : Builtins} (st : state)
        (body : res pyval) (response : pyval) :
  fst (predict body st) = Respond response 200 ->
  model_loaded st = true
  /\ exists items x m out first hours,
      body = Ok (VDict items)
      /\ (forall k, In k required_fields -> In k (keys items))
      /\ (forall k, In k numeric_fields -> coerces items k)
      /\ build_features (VDict items) = Ok x
      /\ model st = Some m
      /\ m x = Ok out
      /\ getitem0 out = Ok first
      /\ float_of first = Ok hours
      /\ response = success_body hours.
Proof.
  intro Hok.
  assert (Hl : model_loaded st = true).
  { destruct (model_loaded st) eqn:Hl; [reflexivity|].
    rewrite (predict_not_loaded st body Hl) in Hok. discriminate Hok. }
  split; [exact Hl|].
  destruct (predict_success_inv st body response Hok)
    as (data & x & hours & -> & Hx & Hh & ->).
  destruct (build_features_inv data x Hx)
    as (items & vt & vh & vi & g & s & -> & Ht & Hft & Hhu & Hfh & Hi & Hfi
        & Hg & _ & Hs & _).
  unfold predicted in Hh.
  apply bind_ok_inv in Hh as (out & Hout & Hh).
  apply bind_ok_inv in Hh as (first & Hfirst & Hhours).
  unfold model_predict in Hout.
  destruct (model st) as [m|] eqn:Hm; [|discriminate Hout].
  exists items, x, m, out, first, hours.
  split; [reflexivity|].
  split.
  { intros k Hk. apply lookup_In.
    destruct Hk as [<-|[<-|[<-|[<-|[<-|[]]]]]]; congruence. }
  split.
  { intros k [<-|[<-|[<-|[]]]]; eexists; eexists; split; eassumption. }
  repeat split; assumption.
Qed.

Lemma success_requires_complete_object_witness :
  model_loaded (Sample.serving (Sample.constant_model 30)) = true
  /\ exists items x m out first hours,
      Ok (VDict Sample.cheese_items) = Ok (VDict items)
      /\ (forall k, In k required_fields -> In k (keys items))
      /\ (forall k, In k numeric_fields -> coerces (B := Sample.builtins) items k)
      /\ build_features (B := Sample.builtins) (VDict items) = Ok x
      /\ model (Sample.serving (Sample.constant_model 30)) = Some m
      /\ m x = Ok out
      /\ getitem0 out = Ok first
      /\ float_of (B := Sample.builtins) first = Ok hours
      /\ success_body 30 = success_body hours.
Proof.
  exact (success_requires_complete_object (B := Sample.builtins)
           (Sample.serving (Sample.constant_model 30))
           (Ok (VDict Sample.cheese_items)) (success_body 30) eq_refl).
Defined.

(** ** What of a JSON object the handler reads *)

Section RequiredOnly.
Context {B : Builtins}.
Variables items1 items2 : list (string * pyval).
Hypothesis nonempty1 : items1 <> [].
Hypothesis nonempty2 : items2 <> [].
Hypothesis same_required : agree_on_required items1 items2.

Lemma required_contains (k : string) :
  In k required_fields ->
  contains (VDict items1) k = contains (VDict items2) k.
Proof. intro Hk. unfold contains. now rewrite (same_required k Hk). Qed.

Lemma required_getitem (k : string) :
  In k required_fields ->
  getitem (VDict items1) k = getitem (VDict items2) k.
Proof. intro Hk. unfold getitem. now rewrite (same_required k Hk). Qed.

Lemma required_missing_fields :
  missing_fields (VDict items1) required_fields
  = missing_fields (VDict items2) required_fields.
Proof.
  unfold required_fields, missing_fields.
  repeat (rewrite (required_contains _);
          [|unfold required_fields; simpl; tauto]).
  reflexivity.
Qed.

Lemma required_build_features :
  build_features (VDict items1) = build_features (VDict items2).
Proof.
  unfold build_features.
  repeat (rewrite (required_getitem _);
          [|unfold required_fields; simpl; tauto]).
  reflexivity.
Qed.

Lemma required_predict (st : state) :
  predict (Ok (VDict items1)) st = predict (Ok (VDict items2)) st.
Proof.
  assert (Ht : truthy (VDict items1) = truthy (VDict items2)).
  { destruct items1; [now contradiction nonempty1|].
    destruct items2; [now contradiction nonempty2|]. reflexivity. }
  cbv beta iota delta [predict bindM read_model_loaded read_model ret
                       predict_guarded predict_body].
  rewrite Ht, required_missing_fields, required_build_features.
  reflexivity.
Qed.
End RequiredOnly.

(** X7: the answer to a non-empty JSON object depends only on what it
    binds the five required fields to: entries under any other key are
    ignored. *)
Theorem predict_ignores_other_keys {B : Builtins} (st : state)
        (items1 items2 : list (string * pyval)) :
  items1 <> [] -> items2 <> [] ->
  agree_on_required items1 items2 ->
  predict (Ok (VDict items1)) st = predict (Ok (VDict items2)) st.
Proof. intros H1 H2 Hreq. now apply required_predict. Qed.

Lemma predict_ignores_other_keys_witness :
  predict (B := Sample.builtins)
          (Ok (VDict (("batch", VInt 7) :: Sample.cheese_items)))
          (Sample.serving (Sample.constant_model 30))
  = predict (B := Sample.builtins) (Ok (VDict Sample.cheese_items))
            (Sample.serving (Sample.constant_model 30)).
Proof.
  apply (predict_ignores_other_keys (B := Sample.builtins)
           (Sample.serving (Sample.constant_model 30))
           (("batch", VInt 7) :: Sample.cheese_items) Sample.cheese_items);
    [discriminate|discriminate|].
  intros k Hk. simpl in Hk.
  repeat (destruct Hk as [<-|Hk]; [reflexivity|]). contradiction.
Defined.

(** ** Order of the entries of a JSON object *)

Lemma lookup_Some_In (k : string) (v : pyval) (items : list (string * pyval)) :
  lookup k items = Some v -> In (k, v) items.
Proof.
  induction items as [|[k' x] rest IH]; [discriminate|].
  cbn [lookup]. destruct (String.eqb_spec k' k) as [->|Hne].
  - intros [= ->]. now left.
  - intro Hl. right. now apply IH.
Qed.

Lemma In_lookup (k : string) (v : pyval) (items : list (string * pyval)) :
  NoDup (keys items) -> In (k, v) items -> lookup k items = Some v.
Proof.
  induction items as [|[k' x] rest IH]; [contradiction|].
  cbn [keys map fst lookup]. intros Hnd [Heq|Hin].
  - injection Heq as -> ->. now rewrite String.eqb_refl.
  - inversion Hnd as [|? ? Hnot Hnd']; subst.
    destruct (String.eqb_spec k' k) as [->|Hne].
    + exfalso. apply Hnot. change k with (fst (k, v)). now apply in_map.
    + now apply IH.
Qed.

Lemma lookup_Permutation (k : string) (items items' : list (string * pyval)) :
  NoDup (keys items) -> Permutation items' items ->
  lookup k items' = lookup k items.
Proof.
  intros Hnd Hp.
  assert (Hnd' : NoDup (keys items')).
  { apply (Permutation_NoDup (l := keys items)); [|exact Hnd].
    unfold keys. now apply Permutation_map, Permutation_sym. }
  destruct (lookup k items) as [v|] eqn:Hk.
  - apply In_lookup; [exact Hnd'|].
    apply (Permutation_in _ (Permutation_sym Hp)). now apply lookup_Some_In.
  - destruct (lookup k items') as [v|] eqn:Hk'; [|reflexivity].
    apply lookup_Some_In in Hk'. apply (Permutation_in _ Hp) in Hk'.
    apply (In_lookup _ _ _ Hnd) in Hk'. congruence.
Qed.

(** X8: for a JSON object whose keys are distinct, the order of its
    entries does not matter: every reordering is answered alike. *)
Theorem predict_entry_order_irrelevant {B : Builtins} (st : state)
        (items items' : list (string * pyval)) :
  NoDup (keys items) ->
  Permutation items' items ->
  predict (Ok (VDict items')) st = predict (Ok (VDict items)) st.
Proof.
  intros Hnd Hp.
  destruct items as [|kv rest].
  - apply Permutation_sym, Permutation_nil in Hp. now subst.
  - apply required_predict.
    + intros ->. apply Permutation_nil in Hp. discriminate Hp.
    + discriminate.
    + intros k _. now apply lookup_Permutation.
Qed.

Lemma predict_entry_order_irrelevant_witness :
  predict (B := Sample.builtins) (Ok (VDict (rev Sample.cheese_items)))
          (Sample.serving (Sample.constant_model 30))
  = predict (B := Sample.builtins) (Ok (VDict Sample.cheese_items))
            (Sample.serving (Sample.constant_model 30)).
Proof.
  apply (predict_entry_order_irrelevant (B := Sample.builtins)
           (Sample.serving (Sample.constant_model 30))
           Sample.cheese_items (rev Sample.cheese_items)).
  - unfold Sample.cheese_items, keys. cbn [map fst].
    repeat (constructor;
            [cbn [In]; intros Hin;
             repeat (destruct Hin as [Hin|Hin]; [discriminate Hin|]);
             exact Hin|]).
    constructor.
  - apply Permutation_sym, Permutation_rev.
Defined.

(** ** Errors raised while predicting *)

(** X9: with the model loaded and the row built, a [ValueError] raised
    by the model or while reading its first value, an instance of a
    subclass included, is answered 400 "Invalid input: <detail>", as a
    coercion error is. *)
Theorem prediction_value_error_answered_400 {B : Builtins} (st : state)
        (data : pyval) (x : features) (e : exn) :
  model_loaded st = true ->
  build_features data = Ok x ->
  predicted (model st) x = Raise e ->
  isinstance e ValueError = true ->
  predict (Ok data) st
  = (Respond (error_body ("Invalid input: " ++ exn_str e)) 400, st).
Proof.
  intros Hl Hx Hh He.
  rewrite (predict_reaches_model st data x Hl Hx).
  rewrite (predict_guarded_raise st data e
             (predict_body_model_raise st data x e Hx Hh)).
  rewrite He. reflexivity.
Qed.

Lemma prediction_value_error_answered_400_witness :
  predict (B := Sample.builtins) (Ok (VDict Sample.cheese_items))
          (Sample.serving
             (Sample.failing_model
                (mk_exn (Derived "NotFittedError" ValueError)
                        "This Pipeline instance is not fitted yet.")))
  = (Respond (error_body "Invalid input: This Pipeline instance is not fitted yet.")
             400,
     Sample.serving
       (Sample.failing_model
          (mk_exn (Derived "NotFittedError" ValueError)
                  "This Pipeline instance is not fitted yet."))).
Proof.
  exact (prediction_value_error_answered_400 (B := Sample.builtins)
           (Sample.serving
              (Sample.failing_model
                 (mk_exn (Derived "NotFittedError" ValueError)
                         "This Pipeline instance is not fitted yet.")))
           (VDict Sample.cheese_items) Sample.cheese_features
           (mk_exn (Derived "NotFittedError" ValueError)
                   "This Pipeline instance is not fitted yet.")
           eq_refl eq_refl eq_refl eq_refl).
Defined.

Lemma float_of_int_raise_inv (z : Z) (e : exn) :
  float_of_int z = Raise e ->
  e = mk_exn OverflowError "int too large to convert to float".
Proof.
  unfold float_of_int.
  destruct (is_infinity (SF2Prim (binary_normalize prec emax z 0 false)));
    [|discriminate].
  intros [= <-]. reflexivity.
Qed.

(** X10: with the model loaded, for a JSON object that binds all five
    fields, a numeric field holding an integer too large for a float,
    after numeric fields that coerce, is answered 500 "Prediction error:
    int too large to convert to float": [OverflowError] is not a
    [ValueError]. *)
Theorem integer_overflow_answered_500 {B : Builtins} (st : state)
        (items : list (string * pyval)) (before after : list string)
        (f : string) (z : Z) (e : exn) :
  model_loaded st = true ->
  (forall k, In k required_fields -> In k (keys items)) ->
  numeric_fields = (before ++ f :: after)%list ->
  (forall k, In k before -> coerces items k) ->
  lookup f items = Some (VInt z) ->
  float_of_int z = Raise e ->
  predict (Ok (VDict items)) st
  = (Respond (error_body "Prediction error: int too large to convert to float")
             500,
     st).
Proof.
  intros Hl Hall Hsplit Hbefore Hf Hz.
  pose proof (float_of_int_raise_inv z e Hz) as ->.
  exact (predict_first_failure st items Hl Hall before after f (VInt z) _
           Hsplit Hbefore Hf Hz).
Qed.

Lemma integer_overflow_answered_500_witness :
  predict (B := Sample.builtins)
          (Ok (VDict [("temperature", VInt (2 ^ 1024)); ("humidity", VInt 65);
                      ("time_in_refrigerator", VInt 10);
                      ("ingredient_type", VStr "CHEESE");
                      ("storage_type", VStr "fridge")]))
          (Sample.serving (Sample.constant_model 24))
  = (Respond (error_body "Prediction error: int too large to convert to float")
             500,
     Sample.serving (Sample.constant_model 24)).
Proof.
  refine (integer_overflow_answered_500 (B := Sample.builtins)
            (Sample.serving (Sample.constant_model 24))
            [("temperature", VInt (2 ^ 1024)); ("humidity", VInt 65);
             ("time_in_refrigerator", VInt 10);
             ("ingredient_type", VStr "CHEESE");
             ("storage_type", VStr "fridge")]
            [] ["humidity"; "time_in_refrigerator"] "temperature" (2 ^ 1024)
            (mk_exn OverflowError "int too large to convert to float")
            eq_refl _ eq_refl (fun k Hk => match Hk with end) eq_refl eq_refl).
  intros k Hk. simpl in Hk |- *.
  repeat (destruct Hk as [<-|Hk]; [tauto|]). contradiction.
Defined.

(** ** JSON arrays *)

Lemma missing_fields_list (l : list pyval) (fields : list string) :
  missing_fields (VList l) fields
  = Ok (filter (fun f => negb (existsb (is_str f) l)) fields).
Proof.
  induction fields as [|f rest IH]; [reflexivity|].
  cbn [missing_fields filter contains bind]. rewrite IH. cbn [bind].
  destruct (existsb (is_str f) l); reflexivity.
Qed.

(** X11: with the model loaded, a non-empty JSON array is never answered
    200: it is answered 400 with the required names that are not among
    its elements, in declared order, and 500 (indexing a list by a name
    raises [TypeError]) when all five names are elements. *)
Theorem array_body_answered {B : Builtins} (st : state) (l : list pyval) :
  model_loaded st = true ->
  l <> [] ->
  predict (Ok (VList l)) st
  = (match not_listed l with
     | [] =>
         Respond
           (error_body
              "Prediction error: list indices must be integers or slices, not str")
           500
     | f :: fs =>
         Respond (error_body ("Missing fields: " ++ concat ", " (f :: fs))) 400
     end,
     st).
Proof.
  intros Hl Hne.
  assert (Hd : truthy (VList l) = true)
    by (destruct l; [now contradiction Hne|reflexivity]).
  pose proof (missing_fields_list l required_fields) as Hm.
  fold (not_listed l) in Hm.
  destruct (not_listed l) as [|f fs].
  - rewrite (predict_complete st (VList l) Hl Hd Hm).
    rewrite (predict_guarded_raise st (VList l)
               (mk_exn TypeError
                       "list indices must be integers or slices, not str"));
      reflexivity.
  - now apply predict_missing.
Qed.

Lemma array_body_answered_witness :
  predict (B := Sample.builtins) (Ok (VList (map VStr required_fields)))
          (Sample.serving (Sample.constant_model 24))
  = (Respond
       (error_body
          "Prediction error: list indices must be integers or slices, not str")
       500,
     Sample.serving (Sample.constant_model 24)).
Proof.
  refine (array_body_answered (B := Sample.builtins)
            (Sample.serving (Sample.constant_model 24))
            (map VStr required_fields) eq_refl _).
  discriminate.
Defined.

(** ** From startup to an answer *)

(** X12: after a startup whose load returned an object, the flag is set
    and [predict] answers every request from which the row is built with
    what that object's [predict] gives for the row: 200 with the first
    value as hours, 400 for a [ValueError], 500 for any other error. *)
Theorem loaded_model_answers {B : Builtins} (m : model_obj) (data : pyval)
        (x : features) :
  build_features data = Ok x ->
  exists st,
    startup (Ok m) = Ok st
    /\ model_loaded st = true
    /\ predict (Ok data) st
       = (match bind (bind (m x) getitem0) float_of with
          | Ok hours => Respond (success_body hours) 200
          | Raise e =>
              if isinstance e ValueError
              then Respond (error_body ("Invalid input: " ++ exn_str e)) 400
              else Respond (error_body ("Prediction error: " ++ exn_str e)) 500
          end,
          st).
Proof.
  intro Hx. exists (mk_state (Some m) true).
  split; [apply startup_loaded|]. split; [reflexivity|].
  set (st := mk_state (Some m) true).
  rewrite (predict_reaches_model st data x eq_refl Hx).
  assert (Hp : predicted (model st) x = bind (bind (m x) getitem0) float_of).
  { unfold predicted, model_predict. cbn [model st].
    destruct (m x) as [out|e]; [|reflexivity]. cbn [bind].
    destruct (getitem0 out); reflexivity. }
  destruct (bind (bind (m x) getitem0) float_of) as [hours|e].
  - now rewrite (predict_guarded_ok st data x hours Hx Hp).
  - now rewrite (predict_guarded_raise st data e
                   (predict_body_model_raise st data x e Hx Hp)).
Qed.

Lemma loaded_model_answers_witness :
  exists st,
    startup (Ok (Sample.constant_model 30)) = Ok st
    /\ model_loaded st = true
    /\ predict (B := Sample.builtins) (Ok (VDict Sample.cheese_items)) st
       = (Respond (success_body 30) 200, st).
Proof.
  exact (loaded_model_answers (B := Sample.builtins) (Sample.constant_model 30)
           (VDict Sample.cheese_items) Sample.cheese_features eq_refl).
Defined.

(** ** Order of the labels *)

Lemma SFleb_trans (a b c : spec_float) :
  SFleb a b = true -> SFleb b c = true -> SFleb a c = true.
Proof.
  unfold SFleb, SFcompare.
  destruct a as [sa|sa| |sa ma ea], b as [sb|sb| |sb mb eb],
    c as [sc|sc| |sc mc ec];
    try discriminate; try reflexivity;
    try (destruct sa; try discriminate; try reflexivity);
    try (destruct sb; try discriminate; try reflexivity);
    try (destruct sc; try discriminate; try reflexivity).
  all: change (PosDef.Pos.compare_cont Eq) with Pos.compare.
  all: destruct (Z.compare_spec ea eb), (Z.compare_spec eb ec),
         (Z.compare_spec ea ec);
       try (exfalso; lia); try discriminate; try reflexivity; subst;
       destruct (Pos.compare_spec ma mb), (Pos.compare_spec mb mc),
         (Pos.compare_spec ma mc);
       try (exfalso; lia); try discriminate; try reflexivity.
Qed.

Lemma leb_trans (x y z : float) :
  (x <=? y)%float = true -> (y <=? z)%float = true -> (x <=? z)%float = true.
Proof. rewrite !leb_spec. apply SFleb_trans. Qed.

(** X13: the classification is monotone: of two predictions the larger
    never gets the worse label, in the order "Expired", "Stale",
    "Fresh". *)
Theorem classify_monotone (h1 h2 : float) :
  (h1 <=? h2)%float = true ->
  (label_rank (classify h1) <= label_rank (classify h2))%nat.
Proof.
  intro Hle. unfold classify.
  destruct (h2 <=? 0)%float eqn:H20.
  - rewrite (leb_trans h1 h2 0 Hle H20). apply le_n.
  - destruct (h2 <=? 24)%float eqn:H224.
    + pose proof (leb_trans h1 h2 24 Hle H224) as H124.
      destruct (h1 <=? 0)%float; [|rewrite H124]; cbv [label_rank];
        cbn; lia.
    + destruct (h1 <=? 0)%float; [|destruct (h1 <=? 24)%float];
        cbv [label_rank]; cbn; lia.
Qed.

Lemma classify_monotone_witness :
  (label_rank (classify 24) <= label_rank (classify 0x1.800068db8bac7p+4))%nat.
Proof.
  exact (classify_monotone 24 0x1.800068db8bac7p+4 eq_refl).
Defined.
